(** * thermal_app.py: the data preparer, the chart renderer and the folder lister

    A shallow embedding of the three helper functions of [thermal_app.py]
    ([get_subfolders], [prepare_data], [plot_thermal_graphs]) and of the
    part of the script that chains them (lines 182-195).

    - A pandas [DataFrame] is a [RangeIndex] (its length) with an ordered
      list of labelled columns; [pd.read_csv] yields distinct labels and
      columns as long as the index ([RawRecordSet]).
    - Cells are values of a numeric carrier [F] with a not-a-number value,
      described by the class [Float64]: only the operations the program
      applies to cells appear in it ([-], [abs], [isna], [== 0]).
    - Python exceptions are the [Raise] results of [result]; the frame that
      [prepare_data] receives is a mutable object, so the function is a
      computation over that object's state.
    - A matplotlib figure is the record of the artists the code adds to it. *)

From Stdlib Require Import String List ZArith Lia Bool.
Import ListNotations.
Local Open Scope string_scope.
Local Open Scope Z_scope.

Set Implicit Arguments.

(** ** Exceptions and results *)

Inductive exception : Type :=
| KeyError (key : string)
| NameError (name : string)
| OSError (msg : string).

Inductive result (A : Type) : Type :=
| OK (a : A)
| Raise (e : exception).

Arguments OK {A} a.
Arguments Raise {A} e.

(** A computation over a mutable object of type [S]: the object's final
    state is returned next to the value or the exception. *)
Definition Py (S A : Type) : Type := S -> S * result A.

Definition ret {S A} (a : A) : Py S A := fun s => (s, OK a).

Definition bind {S A B} (m : Py S A) (k : A -> Py S B) : Py S B :=
  fun s => match m s with
           | (s', OK a) => k a s'
           | (s', Raise e) => (s', Raise e)
           end.

Definition lift {S A} (r : result A) : Py S A := fun s => (s, r).

Declare Scope py_scope.
Delimit Scope py_scope with py.
Notation "x <- m ;; k" := (bind m (fun x => k))
  (at level 100, m at next level, right associativity) : py_scope.
Notation "m ;;; k" := (bind m (fun _ => k))
  (at level 100, right associativity) : py_scope.

(** [for x in xs: body x] *)
Fixpoint for_in {S A} (xs : list A) (body : A -> Py S unit) : Py S unit :=
  match xs with
  | [] => ret tt
  | x :: xs' => bind (body x) (fun _ => for_in xs' body)
  end.

(** ** The numeric carrier *)

Class Float64 (F : Type) : Type := {
  nan : F;
  of_int : Z -> F;
  isnan : F -> bool;
  fsub : F -> F -> F;
  fabs : F -> F;
  eq_zero : F -> bool;
  isnan_nan : isnan nan = true;
  isnan_of_int : forall z, isnan (of_int z) = false;
  fsub_nan_l : forall x y, isnan x = true -> isnan (fsub x y) = true;
  fsub_nan_r : forall x y, isnan y = true -> isnan (fsub x y) = true;
  fabs_nan : forall x, isnan (fabs x) = isnan x;
  eq_zero_nan : forall x, isnan x = true -> eq_zero x = false
}.

(** ** Series and frames *)

Section Frames.

Context {F : Type} `{Float64 F}.

Definition Series : Type := list F.

Record DataFrame : Type := {
  index : nat;
  columns : list (string * Series)
}.

(** What [pd.read_csv] returns: distinct labels, every column as long as
    the index. *)
Definition RawRecordSet (df : DataFrame) : Prop :=
  NoDup (map fst (columns df)) /\
  Forall (fun c => length (snd c) = index df) (columns df).

Fixpoint get_col (c : string) (cols : list (string * Series)) : option Series :=
  match cols with
  | [] => None
  | (k, v) :: rest => if String.eqb k c then Some v else get_col c rest
  end.

(** An existing label keeps its place, a new one goes last. *)
Fixpoint set_col (c : string) (v : Series) (cols : list (string * Series))
  : list (string * Series) :=
  match cols with
  | [] => [(c, v)]
  | (k, x) :: rest =>
      if String.eqb k c then (k, v) :: rest else (k, x) :: set_col c v rest
  end.

Definition has_col (c : string) (df : DataFrame) : bool :=
  match get_col c (columns df) with Some _ => true | None => false end.

(** [len(df)] *)
Definition len (df : DataFrame) : nat := index df.

(** [df[c]] *)
Definition df_getitem (df : DataFrame) (c : string) : result Series :=
  match get_col c (columns df) with
  | Some v => OK v
  | None => Raise (KeyError c)
  end.

(** [df[c] = v] on a frame *)
Definition df_setitem (df : DataFrame) (c : string) (v : Series) : DataFrame :=
  {| index := index df; columns := set_col c v (columns df) |}.

(** [df[cs]]: a new frame with the columns [cs], in that order, over the
    same index. *)
Fixpoint select (cs : list string) (cols : list (string * Series))
  : result (list (string * Series)) :=
  match cs with
  | [] => OK []
  | c :: cs' =>
      match get_col c cols with
      | None => Raise (KeyError c)
      | Some v =>
          match select cs' cols with
          | OK r => OK ((c, v) :: r)
          | Raise e => Raise e
          end
      end
  end.

Definition df_getitem_list (df : DataFrame) (cs : list string) : result DataFrame :=
  match select cs (columns df) with
  | OK r => OK {| index := index df; columns := r |}
  | Raise e => Raise e
  end.

(** The same operations on the frame the function was handed. *)
Definition getitem (c : string) : Py DataFrame Series :=
  fun df => (df, df_getitem df c).

Definition setitem (c : string) (v : Series) : Py DataFrame unit :=
  fun df => (df_setitem df c v, OK tt).

(** [df[c] = x] with a scalar [x]: one copy of [x] per index entry. *)
Definition setitem_scalar (c : string) (x : F) : Py DataFrame unit :=
  fun df => (df_setitem df c (repeat x (index df)), OK tt).

(** [c in df.columns] *)
Definition contains (c : string) : Py DataFrame bool :=
  fun df => (df, OK (has_col c df)).

(** [df[cs].copy()] *)
Definition getitem_list_copy (cs : list string) : Py DataFrame DataFrame :=
  fun df => (df, df_getitem_list df cs).

(** *** Series operations *)

(** [s.shift(1)] *)
Definition shift (s : Series) : Series := firstn (length s) (nan :: s).

(** [a - b] on two series over the same index *)
Fixpoint series_sub (a b : Series) : Series :=
  match a, b with
  | x :: a', y :: b' => fsub x y :: series_sub a' b'
  | _, _ => []
  end.

(** [abs(s)] *)
Definition series_abs (s : Series) : Series := map fabs s.

(** [s.fillna(x)] *)
Definition fillna (s : Series) (x : F) : Series :=
  map (fun v => if isnan v then x else v) s.

(** [s == 0] *)
Definition series_eq_zero (s : Series) : list bool := map eq_zero s.

(** [range(a, b)] *)
Definition range (a b : Z) : list Z :=
  map (fun k => a + Z.of_nat k) (seq 0 (Z.to_nat (b - a))).

(** [idx[mask].tolist()] for the RangeIndex of [n] entries *)
Definition index_where (n : nat) (mask : list bool) : list Z :=
  map (fun p => Z.of_nat (fst p))
      (filter (fun p => snd p) (combine (seq 0 n) mask)).

(** ** prepare_data (lines 57-81) *)

Definition ordered_columns : list string :=
  ["Spiral Count"; "Spiral Number"; "LastFindTrackCenterPosition";
   "FTC Servo Track"; "PID Posn Error"; "backdiff";
   "mS FTC time"; "PWupdate"; "nS LastIndex2SIM";
   "nS diffInx2SIM"; "AvgChangeInIndexToSIM"; "ns Time Correction"].

(** Lines 77-79, on the copy. *)
Definition zero_spiral_of (prepared_df : DataFrame) : result Z :=
  match df_getitem prepared_df "Spiral Number" with
  | Raise e => Raise e
  | OK spiral =>
      let zero_spiral_indices :=
        index_where (index prepared_df) (series_eq_zero spiral) in
      OK (if (1 <? length zero_spiral_indices)%nat
          then nth 1 zero_spiral_indices 0 + 1
          else -1)
  end.

Definition prepare_data : Py DataFrame (DataFrame * Z) :=
  (prev <- getitem "FTC Servo Track" ;;
   cur <- getitem "FTC Servo Track" ;;
   setitem "backdiff" (series_abs (series_sub (shift prev) cur)) ;;;
   bd <- getitem "backdiff" ;;
   setitem "backdiff" (fillna bd (of_int 0)) ;;;
   for_in ordered_columns
     (fun col =>
        present <- contains col ;;
        if present then ret tt else setitem_scalar col nan) ;;;
   prepared_df <- getitem_list_copy ordered_columns ;;
   let prepared_df :=
     df_setitem prepared_df "Spiral Count"
       (map of_int (range 1 (Z.of_nat (len prepared_df) + 1))) in
   zero_spiral <- lift (zero_spiral_of prepared_df) ;;
   ret (prepared_df, zero_spiral))%py.

(** *** What the steps of [prepare_data] compute *)

(** Lines 60-61 as one expression of the servo-track column. *)
Definition backdiff_of (servo : Series) : Series :=
  fillna (series_abs (series_sub (shift servo) servo)) (of_int 0).

(** The frame after the loop of lines 68-70 over the labels [cs]. *)
Fixpoint fill_missing (cs : list string) (df : DataFrame) : DataFrame :=
  match cs with
  | [] => df
  | c :: cs' =>
      fill_missing cs'
        (if has_col c df then df else df_setitem df c (repeat nan (index df)))
  end.

(** Row [i] has a spiral number equal to zero. *)
Definition spiral_is_zero (df : DataFrame) (i : nat) : bool :=
  match get_col "Spiral Number" (columns df) with
  | Some s => match nth_error s i with
              | Some x => eq_zero x
              | None => false
              end
  | None => false
  end.

(** The rows of [df] with a zero spiral number, in row order. *)
Definition zero_spiral_rows (df : DataFrame) : list nat :=
  filter (spiral_is_zero df) (seq 0 (index df)).

(** Row [i] is the second row with a zero spiral number: it is one, and
    exactly one row before it is one. *)
Definition second_zero_spiral_row (df : DataFrame) (i : nat) : Prop :=
  (i < index df)%nat /\ spiral_is_zero df i = true /\
  length (filter (spiral_is_zero df) (seq 0 i)) = 1%nat.

(** The twelve fields, in the order of the normalized table. *)
Definition NormalizedTable (t : DataFrame) : Prop :=
  map fst (columns t) = ordered_columns.

(** *** Three readings that the code does not follow *)

(** Every later row of the back-difference column is the plain absolute
    difference of the two servo-track values. *)
Definition backdiff_is_plain_difference (df : DataFrame) : Prop :=
  forall raw' t m servo b i x y,
    prepare_data df = (raw', OK (t, m)) ->
    get_col "FTC Servo Track" (columns df) = Some servo ->
    get_col "backdiff" (columns t) = Some b ->
    nth_error servo i = Some x -> nth_error servo (S i) = Some y ->
    nth_error b (S i) = Some (fabs (fsub x y)).

(** A frame without servo track or without spiral number makes
    [prepare_data] raise. *)
Definition raises_without_required_field (df : DataFrame) : Prop :=
  has_col "FTC Servo Track" df = false \/ has_col "Spiral Number" df = false ->
  exists raw' e, prepare_data df = (raw', Raise e).

(** Each of the twelve fields that the input lacks is a column of
    not-a-number values in the normalized table. *)
Definition absent_fields_are_nan (df : DataFrame) : Prop :=
  forall raw' t m c,
    prepare_data df = (raw', OK (t, m)) ->
    In c ordered_columns -> has_col c df = false ->
    get_col c (columns t) = Some (repeat nan (index df)).

(** ** plot_thermal_graphs (lines 83-120)

    The figure is the record of what the code puts on it: per axes the
    vertical lines, the plotted lines, title, labels and grid. *)

Record VLine : Type := {
  vline_x : Z;
  vline_color : string;
  vline_style : string
}.

Record Line2D : Type := {
  xdata : Series;
  ydata : Series;
  line_color : string
}.

Record Axes : Type := {
  vlines : list VLine;
  lines : list Line2D;
  title : string;
  xlabel : string;
  ylabel : string;
  grid : bool
}.

Record Figure : Type := {
  suptitle : string;
  axes : list Axes;
  tight_layout : bool
}.

Definition empty_axes : Axes :=
  {| vlines := []; lines := []; title := ""; xlabel := ""; ylabel := "";
     grid := false |}.

(** [plt.subplots(rows, cols)]; [axes] is [axes.flat], row by row. *)
Definition subplots (rows cols : nat) : Figure :=
  {| suptitle := ""; axes := repeat empty_axes (rows * cols);
     tight_layout := false |}.

Definition axvline (x : Z) (color style : string) (ax : Axes) : Axes :=
  {| vlines := vlines ax ++ [{| vline_x := x; vline_color := color;
                                vline_style := style |}];
     lines := lines ax; title := title ax; xlabel := xlabel ax;
     ylabel := ylabel ax; grid := grid ax |}.

Definition plot (xs ys : Series) (color : string) (ax : Axes) : Axes :=
  {| vlines := vlines ax;
     lines := lines ax ++ [{| xdata := xs; ydata := ys; line_color := color |}];
     title := title ax; xlabel := xlabel ax; ylabel := ylabel ax;
     grid := grid ax |}.

Definition set_title (t : string) (ax : Axes) : Axes :=
  {| vlines := vlines ax; lines := lines ax; title := t; xlabel := xlabel ax;
     ylabel := ylabel ax; grid := grid ax |}.

Definition set_xlabel (t : string) (ax : Axes) : Axes :=
  {| vlines := vlines ax; lines := lines ax; title := title ax; xlabel := t;
     ylabel := ylabel ax; grid := grid ax |}.

Definition set_ylabel (t : string) (ax : Axes) : Axes :=
  {| vlines := vlines ax; lines := lines ax; title := title ax;
     xlabel := xlabel ax; ylabel := t; grid := grid ax |}.

Definition set_grid (b : bool) (ax : Axes) : Axes :=
  {| vlines := vlines ax; lines := lines ax; title := title ax;
     xlabel := xlabel ax; ylabel := ylabel ax; grid := b |}.

Fixpoint update_nth {A} (k : nat) (f : A -> A) (l : list A) : list A :=
  match l, k with
  | [], _ => []
  | a :: l', O => f a :: l'
  | a :: l', S k' => a :: update_nth k' f l'
  end.

(** A method call on [axes[r, c]] of the 2 x 2 grid. *)
Definition on_axes (r c : nat) (f : Axes -> Axes) : Py Figure unit :=
  fun fig => ({| suptitle := suptitle fig;
                 axes := update_nth (2 * r + c) f (axes fig);
                 tight_layout := tight_layout fig |}, OK tt).

(** A method call on the [k]-th element of [axes.flat]. *)
Definition on_flat (k : nat) (f : Axes -> Axes) : Py Figure unit :=
  fun fig => ({| suptitle := suptitle fig;
                 axes := update_nth k f (axes fig);
                 tight_layout := tight_layout fig |}, OK tt).

Definition fig_suptitle (t : string) : Py Figure unit :=
  fun fig => ({| suptitle := t; axes := axes fig;
                 tight_layout := tight_layout fig |}, OK tt).

Definition plt_tight_layout : Py Figure unit :=
  fun fig => ({| suptitle := suptitle fig; axes := axes fig;
                 tight_layout := true |}, OK tt).

(** The module namespace: [zero_spiral] is bound by the script, not by
    [plot_thermal_graphs], which reads it as a global. *)
Record Globals : Type := { zero_spiral : option Z }.

Definition load_zero_spiral (g : Globals) : result Z :=
  match zero_spiral g with
  | Some x => OK x
  | None => Raise (NameError "zero_spiral")
  end.

(** The artist that [ax.axvline(x=x, color='red', linestyle='--')] adds. *)
Definition marker_line (x : Z) : VLine :=
  {| vline_x := x; vline_color := "red"; vline_style := "--" |}.

Definition colors : list string := ["#1f77b4"; "#2ca02c"; "#d62728"; "#9467bd"].

Definition plot_column (r c : nat) (df : DataFrame) (col : string) (k : nat)
  : Py Figure unit :=
  (xs <- lift (df_getitem df "Spiral Count") ;;
   ys <- lift (df_getitem df col) ;;
   on_axes r c (plot xs ys (nth k colors "")))%py.

Definition plot_thermal_graphs_body (g : Globals) (df : DataFrame)
  (msn_name : string) : Py Figure unit :=
  (fig_suptitle ("Thermal Analysis: " ++ msn_name) ;;;
   for_in (seq 0 4)
     (fun k => x <- lift (load_zero_spiral g) ;; on_flat k (axvline x "red" "--")) ;;;
   plot_column 0 0 df "FTC Servo Track" 0 ;;;
   on_axes 0 0 (set_title "FTC Servo Track vs Spiral Count") ;;;
   on_axes 0 0 (set_ylabel "Servo Track") ;;;
   on_axes 0 0 (set_grid true) ;;;
   plot_column 0 1 df "mS FTC time" 1 ;;;
   on_axes 0 1 (set_title "mS FTC Time vs Spiral Count") ;;;
   on_axes 0 1 (set_ylabel "Time (ms)") ;;;
   on_axes 0 1 (set_grid true) ;;;
   plot_column 1 0 df "backdiff" 2 ;;;
   on_axes 1 0 (set_title "Backdiff vs Spiral Count") ;;;
   on_axes 1 0 (set_xlabel "Spiral Count") ;;;
   on_axes 1 0 (set_ylabel "Difference") ;;;
   on_axes 1 0 (set_grid true) ;;;
   plot_column 1 1 df "PWupdate" 3 ;;;
   on_axes 1 1 (set_title "PWupdate vs Spiral Count") ;;;
   on_axes 1 1 (set_xlabel "Spiral Count") ;;;
   on_axes 1 1 (set_ylabel "Value") ;;;
   on_axes 1 1 (set_grid true) ;;;
   plt_tight_layout)%py.

Definition plot_thermal_graphs (g : Globals) (df : DataFrame)
  (msn_name : string) : result Figure :=
  match plot_thermal_graphs_body g df msn_name (subplots 2 2) with
  | (fig, OK _) => OK fig
  | (_, Raise e) => Raise e
  end.

(** ** The script, lines 182-195: prepare, then plot

    [processed_df, zero_spiral = prepare_data(raw_df)] binds the module
    global that [plot_thermal_graphs] reads; an exception leaves the
    binding as it was and skips the plot. The metric widgets between the
    two calls read [processed_df] only. *)
Definition show_file (g : Globals) (raw_df : DataFrame) (selected_msn : string)
  : Globals * DataFrame * result (DataFrame * Figure) :=
  match prepare_data raw_df with
  | (raw_df', Raise e) => (g, raw_df', Raise e)
  | (raw_df', OK (processed_df, m)) =>
      let g' := {| zero_spiral := Some m |} in
      (g', raw_df',
       match plot_thermal_graphs g' processed_df selected_msn with
       | OK fig => OK (processed_df, fig)
       | Raise e => Raise e
       end)
  end.

(** ** The tab loop (lines 128-216)

    One [show_file] per file found, in tab order. The [try] of line 181
    catches what a file raises, so the loop goes on with the next tab;
    the module global is carried from tab to tab. *)
Fixpoint show_files (g : Globals) (files : list (DataFrame * string))
  : Globals * list (result (DataFrame * Figure)) :=
  match files with
  | [] => (g, [])
  | (raw_df, selected_msn) :: rest =>
      match show_file g raw_df selected_msn with
      | (g', _, r) =>
          let (g'', rs) := show_files g' rest in (g'', r :: rs)
      end
  end.

(** The column of a field as [prepare_data] sees it: the column itself,
    or not-a-number in every row when the frame has no such field. *)
Definition field_or_nan (df : DataFrame) (c : string) : Series :=
  match get_col c (columns df) with
  | Some v => v
  | None => repeat nan (index df)
  end.

(** The fields that [prepare_data] reads from its input: the twelve
    without the two it computes. *)
Definition source_fields : list string :=
  filter (fun c => negb (String.eqb c "Spiral Count")
                   && negb (String.eqb c "backdiff")) ordered_columns.

(** The columns that [plot_thermal_graphs] reads, in reading order. *)
Definition plotted_columns : list string :=
  ["Spiral Count"; "FTC Servo Track"; "mS FTC time"; "backdiff"; "PWupdate"].

End Frames.

Arguments DataFrame F : clear implicits.
Arguments Series F : clear implicits.
Arguments Figure F : clear implicits.
Arguments Axes F : clear implicits.

(** ** get_subfolders (lines 47-55)

    The operating system is a parameter: each of the three calls the
    function makes may return or raise. The Streamlit page collects the
    messages of [st.error]. *)

Record FileSystem : Type := {
  os_path_exists : string -> result bool;
  os_listdir : string -> result (list string);
  os_path_isdir : string -> result bool;
  os_path_join : string -> string -> string
}.

Definition Page : Type := list string.

Definition st_error (msg : string) : Py Page unit :=
  fun page => ((page ++ [msg])%list, OK tt).

(** [try: body except Exception as e: handler e] *)
Definition try_except {S A} (body : Py S A) (handler : exception -> Py S A)
  : Py S A :=
  fun s => match body s with
           | (s', OK a) => (s', OK a)
           | (s', Raise e) => handler e s'
           end.

Definition str_of_exception (e : exception) : string :=
  match e with
  | KeyError k => k
  | NameError n => "name '" ++ n ++ "' is not defined"
  | OSError msg => msg
  end.

(** [[f for f in entries if os.path.isdir(os.path.join(path, f))]] *)
Fixpoint subfolders_of (fs : FileSystem) (path : string) (entries : list string)
  : result (list string) :=
  match entries with
  | [] => OK []
  | f :: rest =>
      match os_path_isdir fs (os_path_join fs path f) with
      | Raise e => Raise e
      | OK b =>
          match subfolders_of fs path rest with
          | Raise e => Raise e
          | OK l => OK (if b then f :: l else l)
          end
      end
  end.

(** [f] names a directory under [path]. *)
Definition is_dir (fs : FileSystem) (path f : string) : bool :=
  match os_path_isdir fs (os_path_join fs path f) with
  | OK true => true
  | _ => false
  end.

Definition get_subfolders (fs : FileSystem) (path : string)
  : Py Page (list string) :=
  try_except
    (found <- lift (os_path_exists fs path) ;;
     if found
     then entries <- lift (os_listdir fs path) ;;
          lift (subfolders_of fs path entries)
     else ret [])%py
    (fun e => st_error ("Access Error: " ++ str_of_exception e) ;;; ret [])%py.

(** ** A carrier to run the model on: integers and a not-a-number value *)

#[refine] Instance Float64_option_Z : Float64 (option Z) := {|
  nan := None;
  of_int := Some;
  isnan := fun x => match x with None => true | Some _ => false end;
  fsub := fun x y => match x, y with Some a, Some b => Some (a - b) | _, _ => None end;
  fabs := fun x => option_map Z.abs x;
  eq_zero := fun x => match x with Some a => a =? 0 | None => false end
|}.
Proof.
  - reflexivity.
  - reflexivity.
  - intros [a|] y; [discriminate | reflexivity].
  - intros [a|] [b|]; try discriminate; reflexivity.
  - intros [a|]; reflexivity.
  - intros [a|]; [discriminate | reflexivity].
Defined.

Definition scenario : DataFrame (option Z) :=
  {| index := 3;
     columns := [("FTC Servo Track", [Some 5; Some 7; Some 2]);
                 ("Spiral Number", [Some 1; Some 0; Some 0])] |}.

Definition no_spiral : DataFrame (option Z) :=
  {| index := 2;
     columns := [("FTC Servo Track", [Some 5; Some 7])] |}.

Definition servo_gap : DataFrame (option Z) :=
  {| index := 2;
     columns := [("FTC Servo Track", [Some 5; None]);
                 ("Spiral Number", [Some 0; Some 3])] |}.

Definition no_servo : DataFrame (option Z) :=
  {| index := 2;
     columns := [("Spiral Number", [Some 0; Some 0])] |}.

(** The scenario with one more column, which [prepare_data] ignores. *)
Definition scenario_extra : DataFrame (option Z) :=
  {| index := 3;
     columns := [("Unit", [Some 9; Some 9; Some 9]);
                 ("FTC Servo Track", [Some 5; Some 7; Some 2]);
                 ("Spiral Number", [Some 1; Some 0; Some 0])] |}.

(** A normalized table of one row. *)
Definition one_row_table : DataFrame (option Z) :=
  {| index := 1;
     columns := map (fun c => (c, [Some 1])) ordered_columns |}.

(** A file system with one folder and one file under [/data]; nothing
    else can be listed. *)
Definition demo_fs : FileSystem :=
  {| os_path_exists := fun p => OK (String.eqb p "/data" || String.eqb p "/locked");
     os_listdir := fun p =>
       if String.eqb p "/data" then OK ["2024-01-01"; "readme.txt"]
       else Raise (OSError "Permission denied");
     os_path_isdir := fun p => OK (String.eqb p "/data/2024-01-01");
     os_path_join := fun a b => a ++ "/" ++ b |}.

(** ** The select boxes (lines 141-142, 153-154, 164-165) *)

Definition placeholder : string := "-- Select --".

(** [x in xs] *)
Definition list_contains (x : string) (xs : list string) : bool :=
  existsb (String.eqb x) xs.

(** [xs.index(x)]: the first position of [x]; [None] stands for the
    ValueError of an absent [x]. *)
Fixpoint list_index (x : string) (xs : list string) : option nat :=
  match xs with
  | [] => None
  | y :: rest =>
      if String.eqb y x then Some 0%nat
      else option_map S (list_index x rest)
  end.

(** [["-- Select --"] + folders], with [folders] already sorted. *)
Definition select_options (folders : list string) : list string :=
  placeholder :: folders.

(** [options.index(stored) if stored in options else 0] *)
Definition selectbox_index (options : list string) (stored : string)
  : option nat :=
  if list_contains stored options then list_index stored options
  else Some 0%nat.

(** A log with a header and no rows. *)
Definition header_only : DataFrame (option Z) :=
  {| index := 0;
     columns := [("FTC Servo Track", []); ("Spiral Number", [])] |}.

(** * Properties *)

Section Properties.

Context {F : Type} `{Float64 F}.

Implicit Types (df t : DataFrame F) (s v : Series F) (c : string).

(** ** Column lookup and update *)

Lemma get_set_same c v (cols : list (string * Series F)) :
  get_col c (set_col c v cols) = Some v.
Proof.
  induction cols as [|[k x] rest IH]; simpl.
  - now rewrite String.eqb_refl.
  - destruct (String.eqb k c) eqn:E; simpl; rewrite E; auto.
Qed.

Lemma get_set_other c c' v (cols : list (string * Series F)) :
  c <> c' -> get_col c' (set_col c v cols) = get_col c' cols.
Proof.
  intros Hne. induction cols as [|[k x] rest IH]; simpl.
  - destruct (String.eqb c c') eqn:E; auto.
    apply String.eqb_eq in E. contradiction.
  - destruct (String.eqb k c) eqn:E; simpl.
    + apply String.eqb_eq in E. subst k.
      destruct (String.eqb c c') eqn:E'; auto.
      apply String.eqb_eq in E'. contradiction.
    + destruct (String.eqb k c'); auto.
Qed.

Lemma set_col_fst_present c v (cols : list (string * Series F)) :
  get_col c cols <> None -> map fst (set_col c v cols) = map fst cols.
Proof.
  induction cols as [|[k x] rest IH]; simpl; intros Hc.
  - congruence.
  - destruct (String.eqb k c) eqn:E; simpl; auto.
    f_equal. auto.
Qed.

Lemma has_col_true c df :
  has_col c df = true <-> exists v, get_col c (columns df) = Some v.
Proof.
  unfold has_col. destruct (get_col c (columns df)); split.
  - eauto.
  - auto.
  - discriminate.
  - intros [v Hv]. discriminate.
Qed.

Lemma has_col_false c df :
  has_col c df = false <-> get_col c (columns df) = None.
Proof.
  unfold has_col. destruct (get_col c (columns df)); split;
    auto; discriminate.
Qed.

(** ** The loop of lines 68-70 *)

Lemma for_in_fill (cs : list string) df :
  for_in cs
    (fun col => bind (contains col)
       (fun present => if present then ret tt else setitem_scalar col nan)) df
  = (fill_missing cs df, OK tt).
Proof.
  revert df. induction cs as [|c cs IH]; intros df; simpl.
  - reflexivity.
  - unfold bind at 1. unfold bind at 1. unfold contains.
    destruct (has_col c df); simpl; apply IH.
Qed.

Lemma index_fill (cs : list string) df :
  index (fill_missing cs df) = index df.
Proof.
  revert df. induction cs as [|c cs IH]; intros df; simpl; auto.
  rewrite IH. destruct (has_col c df); reflexivity.
Qed.

Lemma get_col_fill (cs : list string) df c :
  get_col c (columns (fill_missing cs df)) =
  match get_col c (columns df) with
  | Some v => Some v
  | None => if existsb (String.eqb c) cs
            then Some (repeat nan (index df)) else None
  end.
Proof.
  revert df. induction cs as [|a cs IH]; intros df; simpl.
  - destruct (get_col c (columns df)); reflexivity.
  - rewrite IH. destruct (has_col a df) eqn:Ha.
    + destruct (get_col c (columns df)) eqn:Hc; auto.
      destruct (String.eqb c a) eqn:E; auto.
      apply String.eqb_eq in E. subst a.
      apply has_col_true in Ha. destruct Ha as [v Hv]. congruence.
    + simpl. destruct (String.eqb c a) eqn:E.
      * apply String.eqb_eq in E. subst a.
        rewrite get_set_same. apply has_col_false in Ha. now rewrite Ha.
      * assert (a <> c) by (intros ->; rewrite String.eqb_refl in E; discriminate).
        rewrite get_set_other by assumption.
        destruct (get_col c (columns df)); reflexivity.
Qed.

(** ** Column selection (line 72) *)

Lemma select_total (cs : list string) (cols : list (string * Series F)) :
  (forall c, In c cs -> get_col c cols <> None) ->
  exists r, select cs cols = OK r /\ map fst r = cs /\
            Forall2 (fun c p => fst p = c /\ get_col c cols = Some (snd p)) cs r.
Proof.
  induction cs as [|a cs IH]; intros Hall; simpl.
  - exists []. repeat split; constructor.
  - destruct (get_col a cols) as [v|] eqn:Ha.
    + destruct IH as (r & Hr & Hfst & Hcols).
      { intros c Hc. apply Hall. now right. }
      rewrite Hr. exists ((a, v) :: r). simpl. repeat split.
      * now rewrite Hfst.
      * constructor; auto.
    + exfalso. apply (Hall a); [now left | assumption].
Qed.

Lemma get_col_selected (cs : list string) (cols r : list (string * Series F)) c :
  Forall2 (fun c p => fst p = c /\ get_col c cols = Some (snd p)) cs r ->
  In c cs -> get_col c r = get_col c cols.
Proof.
  induction 1 as [|a [k v] cs r [Hk Hv] Hrest IH]; simpl; intros Hin.
  - contradiction.
  - simpl in Hk, Hv. subst k. destruct (String.eqb a c) eqn:E.
    + apply String.eqb_eq in E. subst a. now rewrite Hv.
    + destruct Hin as [->|Hin]; [rewrite String.eqb_refl in E; discriminate|].
      auto.
Qed.

Lemma set_set_same c v w (cols : list (string * Series F)) :
  set_col c v (set_col c w cols) = set_col c v cols.
Proof.
  induction cols as [|[k x] rest IH]; simpl.
  - now rewrite String.eqb_refl.
  - destruct (String.eqb k c) eqn:E; simpl; rewrite E; [reflexivity|].
    now rewrite IH.
Qed.

Lemma existsb_eqb_In c (cs : list string) :
  In c cs -> existsb (String.eqb c) cs = true.
Proof.
  intros Hin. apply existsb_exists. exists c. split; auto.
  apply String.eqb_refl.
Qed.

(** ** Running a sequence of statements *)

Lemma bind_run {S A B} (m : Py S A) (k : A -> Py S B) (x y : S) a :
  m x = (y, OK a) -> bind m k x = k a y.
Proof. intros Hm. unfold bind. now rewrite Hm. Qed.

Lemma bind_raise {S A B} (m : Py S A) (k : A -> Py S B) (x y : S) e :
  m x = (y, Raise e) -> bind m k x = (y, Raise e).
Proof. intros Hm. unfold bind. now rewrite Hm. Qed.

Lemma bind_getitem {B} c v (k : Series F -> Py (DataFrame F) B) df :
  get_col c (columns df) = Some v -> bind (getitem c) k df = k v df.
Proof.
  intros Hc. apply bind_run. unfold getitem, df_getitem. now rewrite Hc.
Qed.

Lemma bind_setitem {B} c v (k : unit -> Py (DataFrame F) B) df :
  bind (setitem c v) k df = k tt (df_setitem df c v).
Proof. reflexivity. Qed.

Lemma get_col_setitem_same df c v :
  get_col c (columns (df_setitem df c v)) = Some v.
Proof. apply get_set_same. Qed.

Lemma df_setitem_twice df c v w :
  df_setitem (df_setitem df c w) c v = df_setitem df c v.
Proof. unfold df_setitem. simpl. now rewrite set_set_same. Qed.

(** ** prepare_data, step by step *)

(** Without a servo-track column line 60 raises before anything is
    assigned. *)
Lemma prepare_data_raises df :
  get_col "FTC Servo Track" (columns df) = None ->
  prepare_data df = (df, Raise (KeyError "FTC Servo Track")).
Proof.
  intros Hs. unfold prepare_data, bind, getitem, df_getitem.
  now rewrite Hs.
Qed.

(** With one, every later step succeeds. *)
Lemma prepare_data_returns df s :
  get_col "FTC Servo Track" (columns df) = Some s ->
  exists raw' t m,
    prepare_data df = (raw', OK (t, m)) /\
    raw' = fill_missing ordered_columns
             (df_setitem df "backdiff" (backdiff_of s)) /\
    index t = index df /\
    NormalizedTable t /\
    (forall c, In c ordered_columns ->
       get_col c (columns t) =
       if String.eqb c "Spiral Count"
       then Some (map of_int (range 1 (Z.of_nat (index df) + 1)))
       else get_col c (columns raw')) /\
    zero_spiral_of t = OK m.
Proof.
  intros Hs.
  remember (fill_missing ordered_columns
              (df_setitem df "backdiff" (backdiff_of s))) as raw' eqn:Hraw.
  assert (Hidx : index raw' = index df) by (subst raw'; now rewrite index_fill).
  assert (Hall : forall c, In c ordered_columns ->
                           get_col c (columns raw') <> None).
  { intros c Hc. subst raw'. rewrite get_col_fill.
    rewrite (existsb_eqb_In _ _ Hc).
    destruct (get_col c _); discriminate. }
  destruct (select_total ordered_columns (columns raw') Hall)
    as (r & Hr & Hfst & Hcols).
  remember (df_setitem {| index := index raw'; columns := r |} "Spiral Count"
              (map of_int (range 1 (Z.of_nat (index raw') + 1)))) as t eqn:Ht.
  assert (Hget : forall c, In c ordered_columns ->
            get_col c (columns t) =
            if String.eqb c "Spiral Count"
            then Some (map of_int (range 1 (Z.of_nat (index df) + 1)))
            else get_col c (columns raw')).
  { intros c Hc. subst t. unfold df_setitem, columns at 1.
    destruct (String.eqb c "Spiral Count") eqn:E.
    - apply String.eqb_eq in E. subst c. rewrite get_set_same. now rewrite Hidx.
    - rewrite get_set_other.
      + eapply get_col_selected; eassumption.
      + intros <-. rewrite String.eqb_refl in E. discriminate. }
  assert (Hin_sn : In "Spiral Number" ordered_columns)
    by (unfold ordered_columns; simpl; tauto).
  assert (Hin_sc : In "Spiral Count" ordered_columns)
    by (unfold ordered_columns; simpl; tauto).
  assert (Hsp : exists sp, get_col "Spiral Number" (columns t) = Some sp).
  { rewrite (Hget _ Hin_sn).
    change (String.eqb "Spiral Number" "Spiral Count") with false. cbv iota.
    destruct (get_col "Spiral Number" (columns raw')) as [sp|] eqn:E; eauto.
    exfalso. now apply (Hall _ Hin_sn). }
  destruct Hsp as [sp Hsp].
  assert (Hz : exists m, zero_spiral_of t = OK m).
  { unfold zero_spiral_of, df_getitem. rewrite Hsp. eauto. }
  destruct Hz as [m Hm].
  exists raw', t, m.
  split; [|split; [reflexivity|split; [|split; [|split; [exact Hget|exact Hm]]]]].
  - unfold prepare_data.
    erewrite bind_getitem by exact Hs. erewrite bind_getitem by exact Hs.
    rewrite bind_setitem.
    erewrite bind_getitem by apply get_col_setitem_same.
    rewrite bind_setitem. rewrite df_setitem_twice.
    fold (backdiff_of s).
    erewrite bind_run by apply for_in_fill.
    rewrite <- Hraw.
    assert (Hcopy : getitem_list_copy ordered_columns raw'
                    = (raw', OK {| index := index raw'; columns := r |})).
    { unfold getitem_list_copy, df_getitem_list. now rewrite Hr. }
    erewrite bind_run by exact Hcopy.
    unfold len.
    change (index {| index := index raw'; columns := r |}) with (index raw').
    rewrite <- Ht.
    unfold bind, lift, ret. now rewrite Hm.
  - subst t. exact Hidx.
  - unfold NormalizedTable. subst t.
    change (columns (df_setitem ?d ?c ?v)) with (set_col c v (columns d)).
    cbn [columns].
    rewrite set_col_fst_present; [exact Hfst|].
    erewrite get_col_selected by eassumption.
    now apply Hall.
Qed.

(** ** Positions selected by a mask *)

Lemma filter_none {A} (p : A -> bool) (l : list A) :
  (forall x, In x l -> p x = false) -> filter p l = [].
Proof.
  induction l as [|a l IH]; simpl; intros Hp; auto.
  rewrite (Hp a) by now left. apply IH. intros x Hx. apply Hp. now right.
Qed.

(** The [k]-th selected position of a range is selected, and exactly [k]
    positions before it are. *)
Lemma filter_seq_nth (p : nat -> bool) (n : nat) :
  forall (a k i : nat),
    nth_error (filter p (seq a n)) k = Some i ->
    (a <= i < a + n)%nat /\ p i = true /\
    length (filter p (seq a (i - a))) = k.
Proof.
  induction n as [|n IH]; intros a k i Hk; simpl in Hk.
  - destruct k; discriminate.
  - destruct (p a) eqn:Pa.
    + destruct k as [|k]; simpl in Hk.
      * injection Hk as <-. replace (a - a)%nat with 0%nat by lia.
        simpl. repeat split; auto; lia.
      * apply IH in Hk. destruct Hk as (Hr & Hp & Hl).
        replace (i - a)%nat with (S (i - S a)) by lia.
        simpl. rewrite Pa. simpl. repeat split; auto; lia.
    + apply IH in Hk. destruct Hk as (Hr & Hp & Hl).
      replace (i - a)%nat with (S (i - S a)) by lia.
      simpl. rewrite Pa. repeat split; auto; lia.
Qed.

Lemma index_where_from (n : nat) :
  forall (a : nat) (sp : Series F),
    map (fun p : nat * bool => Z.of_nat (fst p))
        (filter (fun p => snd p) (combine (seq a n) (series_eq_zero sp)))
    = map Z.of_nat
        (filter (fun i => match nth_error sp (i - a) with
                          | Some x => eq_zero x
                          | None => false
                          end) (seq a n)).
Proof.
  induction n as [|n IH]; intros a sp; [reflexivity|].
  destruct sp as [|x sp].
  - simpl combine. simpl filter at 1. simpl map at 1.
    rewrite filter_none; [reflexivity|].
    intros i _. now destruct (i - a)%nat.
  - cbn [seq series_eq_zero map combine filter snd].
    replace (a - a)%nat with 0%nat by lia. cbn [nth_error].
    assert (Htail :
      filter (fun i => match nth_error (x :: sp) (i - a) with
                       | Some y => eq_zero y
                       | None => false
                       end) (seq (S a) n)
      = filter (fun i => match nth_error sp (i - S a) with
                         | Some y => eq_zero y
                         | None => false
                         end) (seq (S a) n)).
    { apply filter_ext_in. intros i Hi. apply in_seq in Hi.
      replace (i - a)%nat with (S (i - S a)) by lia. reflexivity. }
    rewrite Htail. specialize (IH (S a) sp). unfold series_eq_zero in IH.
    destruct (eq_zero x); cbn [map fst]; now rewrite IH.
Qed.

Lemma index_where_rows (n : nat) (sp : Series F) :
  index_where n (series_eq_zero sp)
  = map Z.of_nat
      (filter (fun i => match nth_error sp i with
                        | Some x => eq_zero x
                        | None => false
                        end) (seq 0 n)).
Proof.
  unfold index_where. rewrite index_where_from.
  f_equal. apply filter_ext. intros i. now rewrite Nat.sub_0_r.
Qed.

Lemma nth_error_repeat_nan (n i : nat) (x : F) :
  nth_error (repeat (@nan F _) n) i = Some x -> eq_zero x = false.
Proof.
  revert i. induction n as [|n IH]; intros [|i]; simpl; try discriminate.
  - intros [= <-]. apply eq_zero_nan, isnan_nan.
  - apply IH.
Qed.

(** ** The back-difference column *)

Lemma series_sub_shift_length (p : F) (s : Series F) :
  length (series_sub (firstn (length s) (p :: s)) s) = length s.
Proof.
  revert p. induction s as [|x s IH]; intros p; simpl; auto.
Qed.

Lemma series_sub_shift_succ (s : Series F) :
  forall (p : F) (i : nat) (x y : F),
    nth_error s i = Some x -> nth_error s (S i) = Some y ->
    nth_error (series_sub (firstn (length s) (p :: s)) s) (S i)
    = Some (fsub x y).
Proof.
  induction s as [|a s IH]; intros p i x y Hx Hy.
  - destruct i; discriminate.
  - destruct s as [|b s']; [destruct i; discriminate|].
    destruct i as [|i].
    + simpl in Hx, Hy. injection Hx as <-. injection Hy as <-. reflexivity.
    + change (nth_error (a :: b :: s') (S i)) with (nth_error (b :: s') i) in Hx.
      change (nth_error (a :: b :: s') (S (S i)))
        with (nth_error (b :: s') (S i)) in Hy.
      specialize (IH a i x y Hx Hy).
      change (length (a :: b :: s')) with (S (length (b :: s'))).
      cbn [firstn series_sub nth_error]. exact IH.
Qed.

Lemma backdiff_of_length (s : Series F) :
  length (backdiff_of s) = length s.
Proof.
  unfold backdiff_of, fillna, series_abs, shift.
  now rewrite !length_map, series_sub_shift_length.
Qed.

Lemma backdiff_of_first (x : F) (s : Series F) :
  nth_error (backdiff_of (x :: s)) 0 = Some (of_int 0).
Proof.
  unfold backdiff_of, fillna, series_abs, shift. simpl.
  now rewrite fabs_nan, (fsub_nan_l _ x isnan_nan).
Qed.

Lemma backdiff_of_succ (s : Series F) (i : nat) (x y : F) :
  nth_error s i = Some x -> nth_error s (S i) = Some y ->
  nth_error (backdiff_of s) (S i)
  = Some (if isnan (fabs (fsub x y)) then of_int 0 else fabs (fsub x y)).
Proof.
  intros Hx Hy. unfold backdiff_of, fillna, series_abs, shift.
  rewrite !nth_error_map.
  now rewrite (series_sub_shift_succ s nan i Hx Hy).
Qed.

Lemma range_from_one (n : nat) :
  range 1 (Z.of_nat n + 1) = map Z.of_nat (seq 1 n).
Proof.
  unfold range. replace (Z.of_nat n + 1 - 1) with (Z.of_nat n) by lia.
  rewrite Nat2Z.id, <- seq_shift, map_map.
  apply map_ext. intros k. lia.
Qed.

(** ** What prepare_data returns and what it leaves behind *)

Lemma ordered_columns_In c :
  In c ordered_columns -> existsb (String.eqb c) ordered_columns = true.
Proof. apply existsb_eqb_In. Qed.

Lemma prepare_data_spec df s :
  get_col "FTC Servo Track" (columns df) = Some s ->
  exists raw' t m,
    prepare_data df = (raw', OK (t, m)) /\
    index raw' = index df /\
    get_col "backdiff" (columns raw') = Some (backdiff_of s) /\
    (forall c, c <> "backdiff" ->
       get_col c (columns raw') =
       match get_col c (columns df) with
       | Some v => Some v
       | None => if existsb (String.eqb c) ordered_columns
                 then Some (repeat nan (index df)) else None
       end) /\
    index t = index df /\
    NormalizedTable t /\
    get_col "Spiral Count" (columns t)
      = Some (map of_int (range 1 (Z.of_nat (index df) + 1))) /\
    (forall c, In c ordered_columns -> c <> "Spiral Count" ->
       get_col c (columns t) = get_col c (columns raw')) /\
    zero_spiral_of t = OK m /\
    m = (if (1 <? length (zero_spiral_rows df))%nat
         then Z.of_nat (nth 1 (zero_spiral_rows df) 0%nat) + 1
         else -1).
Proof.
  intros Hs.
  destruct (prepare_data_returns df Hs)
    as (raw' & t & m & Hrun & Hraw & Hidx & Hnorm & Hget & Hm).
  assert (Hbd : get_col "backdiff" (columns raw') = Some (backdiff_of s)).
  { subst raw'. rewrite get_col_fill.
    change (columns (df_setitem df "backdiff" (backdiff_of s)))
      with (set_col "backdiff" (backdiff_of s) (columns df)).
    now rewrite get_set_same. }
  assert (Hother : forall c, c <> "backdiff" ->
       get_col c (columns raw') =
       match get_col c (columns df) with
       | Some v => Some v
       | None => if existsb (String.eqb c) ordered_columns
                 then Some (repeat nan (index df)) else None
       end).
  { intros c Hc. subst raw'. rewrite get_col_fill.
    change (columns (df_setitem df "backdiff" (backdiff_of s)))
      with (set_col "backdiff" (backdiff_of s) (columns df)).
    rewrite get_set_other by congruence. reflexivity. }
  assert (Hsc : get_col "Spiral Count" (columns t)
      = Some (map of_int (range 1 (Z.of_nat (index df) + 1)))).
  { rewrite Hget by (unfold ordered_columns; simpl; tauto).
    now rewrite String.eqb_refl. }
  assert (Hrest : forall c, In c ordered_columns -> c <> "Spiral Count" ->
       get_col c (columns t) = get_col c (columns raw')).
  { intros c Hc Hne. rewrite (Hget c Hc).
    destruct (String.eqb c "Spiral Count") eqn:E; auto.
    apply String.eqb_eq in E. contradiction. }
  exists raw', t, m.
  split; [exact Hrun|]. split; [subst raw'; now rewrite index_fill|].
  split; [exact Hbd|]. split; [exact Hother|]. split; [exact Hidx|].
  split; [exact Hnorm|]. split; [exact Hsc|]. split; [exact Hrest|].
  split; [exact Hm|].
  assert (Hin_sn : In "Spiral Number" ordered_columns)
    by (unfold ordered_columns; simpl; tauto).
  assert (Hsp : get_col "Spiral Number" (columns t) =
                match get_col "Spiral Number" (columns df) with
                | Some v => Some v
                | None => Some (repeat nan (index df))
                end).
  { rewrite Hrest by (auto; discriminate).
    rewrite Hother by discriminate.
    rewrite (ordered_columns_In Hin_sn). reflexivity. }
  unfold zero_spiral_of, df_getitem in Hm. rewrite Hsp in Hm.
  assert (Hrows : forall sp,
     match get_col "Spiral Number" (columns df) with
     | Some v => Some v
     | None => Some (repeat nan (index df))
     end = Some sp ->
     index_where (index t) (series_eq_zero sp)
     = map Z.of_nat (zero_spiral_rows df)).
  { intros sp Hsp'. rewrite index_where_rows, Hidx. f_equal.
    unfold zero_spiral_rows. apply filter_ext. intros i.
    unfold spiral_is_zero.
    destruct (get_col "Spiral Number" (columns df)) as [v|].
    - now injection Hsp' as <-.
    - injection Hsp' as <-.
      destruct (nth_error (repeat nan (index df)) i) as [x|] eqn:E; auto.
      now apply nth_error_repeat_nan in E. }
  destruct (match get_col "Spiral Number" (columns df) with
            | Some v => Some v
            | None => Some (repeat nan (index df))
            end) as [sp|] eqn:E.
  - rewrite (Hrows sp eq_refl) in Hm. rewrite length_map in Hm.
    injection Hm as <-.
    destruct (1 <? length (zero_spiral_rows df))%nat; auto.
    f_equal. change 0 with (Z.of_nat 0). apply map_nth.
  - destruct (get_col "Spiral Number" (columns df)); discriminate.
Qed.

Lemma prepare_data_OK_inv df raw' t m :
  prepare_data df = (raw', OK (t, m)) ->
  exists s, get_col "FTC Servo Track" (columns df) = Some s.
Proof.
  intros Hrun.
  destruct (get_col "FTC Servo Track" (columns df)) as [s|] eqn:E; eauto.
  rewrite (prepare_data_raises df E) in Hrun. discriminate.
Qed.

Lemma get_col_In c v (cols : list (string * Series F)) :
  get_col c cols = Some v -> In (c, v) cols.
Proof.
  induction cols as [|[k x] rest IH]; simpl; [discriminate|].
  destruct (String.eqb k c) eqn:E.
  - apply String.eqb_eq in E. subst k. intros [= <-]. now left.
  - intros Hc. right. auto.
Qed.

Lemma get_col_fst c (cols : list (string * Series F)) :
  In c (map fst cols) -> exists v, get_col c cols = Some v.
Proof.
  induction cols as [|[k x] rest IH]; simpl; [contradiction|].
  destruct (String.eqb k c) eqn:E; [eauto|].
  intros [->|Hin]; [rewrite String.eqb_refl in E; discriminate | auto].
Qed.

Lemma RawRecordSet_length df c v :
  RawRecordSet df -> get_col c (columns df) = Some v -> length v = index df.
Proof.
  intros [_ Hlen] Hc. apply get_col_In in Hc.
  rewrite Forall_forall in Hlen. exact (Hlen _ Hc).
Qed.

(** ** The claims about prepare_data *)


(** C2, as amended: row 0 of the back-difference column is 0; row i > 0
    is abs(servo_track[i-1] - servo_track[i]) when that is a number, and
    0 when it is not a number (line 61 fills every not-a-number row, not
    only row 0). *)
Theorem backdiff_rows df servo :
  get_col "FTC Servo Track" (columns df) = Some servo ->
  exists raw' t m b,
    prepare_data df = (raw', OK (t, m)) /\
    get_col "backdiff" (columns t) = Some b /\
    length b = length servo /\
    (servo <> [] -> nth_error b 0 = Some (of_int 0)) /\
    (forall i x y,
       nth_error servo i = Some x -> nth_error servo (S i) = Some y ->
       nth_error b (S i)
       = Some (if isnan (fabs (fsub x y)) then of_int 0 else fabs (fsub x y))).
Proof.
  intros Hs.
  destruct (prepare_data_spec df Hs)
    as (raw' & t & m & Hrun & _ & Hbd & _ & _ & _ & _ & Hrest & _).
  exists raw', t, m, (backdiff_of servo).
  split; [exact Hrun|]. split.
  { rewrite Hrest; [exact Hbd | unfold ordered_columns; simpl; tauto
                   | discriminate]. }
  split; [apply backdiff_of_length|]. split.
  - destruct servo as [|x servo]; [congruence|]. intros _.
    apply backdiff_of_first.
  - intros i x y. apply backdiff_of_succ.
Qed.


(** C5: the normalized table has as many rows as the input, every
    column of it has that many cells, and the rows keep their order: a
    field of the input that is neither renumbered nor derived is the same
    column in the table. *)
Theorem prepare_data_keeps_rows df :
  has_col "FTC Servo Track" df = true ->
  exists raw' t m,
    prepare_data df = (raw', OK (t, m)) /\
    len t = len df /\
    (forall c v, In c ordered_columns ->
       c <> "Spiral Count" -> c <> "backdiff" ->
       get_col c (columns df) = Some v -> get_col c (columns t) = Some v) /\
    (RawRecordSet df ->
     forall c v, get_col c (columns t) = Some v -> length v = len df).
Proof.
  intros Hs. apply has_col_true in Hs. destruct Hs as [s Hs].
  destruct (prepare_data_spec df Hs)
    as (raw' & t & m & Hrun & _ & Hbd & Hother & Hidx & Hnorm & Hsc & Hrest & _).
  exists raw', t, m. split; [exact Hrun|]. split; [exact Hidx|]. split.
  - intros c v Hc Hn1 Hn2 Hv. rewrite (Hrest c Hc Hn1), (Hother c Hn2).
    now rewrite Hv.
  - intros Hraw c v Hv. unfold len.
    assert (Hc : In c ordered_columns).
    { rewrite <- Hnorm. apply get_col_In in Hv.
      apply (in_map fst) in Hv. exact Hv. }
    destruct (String.eqb c "Spiral Count") eqn:E1.
    { apply String.eqb_eq in E1. subst c. rewrite Hsc in Hv.
      injection Hv as <-.
      now rewrite range_from_one, !length_map, length_seq. }
    assert (Hn1 : c <> "Spiral Count")
      by (intros ->; rewrite String.eqb_refl in E1; discriminate).
    rewrite (Hrest c Hc Hn1) in Hv.
    destruct (String.eqb c "backdiff") eqn:E2.
    { apply String.eqb_eq in E2. subst c. rewrite Hbd in Hv.
      injection Hv as <-. rewrite backdiff_of_length.
      eapply RawRecordSet_length; eassumption. }
    assert (Hn2 : c <> "backdiff")
      by (intros ->; rewrite String.eqb_refl in E2; discriminate).
    rewrite (Hother c Hn2), (ordered_columns_In Hc) in Hv.
    destruct (get_col c (columns df)) as [w|] eqn:Ew.
    + injection Hv as <-. eapply RawRecordSet_length; eassumption.
    + injection Hv as <-. apply repeat_length.
Qed.

(** C6: the sequence-index column of the normalized table is 1, 2, ..., n
    for an input of n rows, whatever the input holds in that column. *)
Theorem sequence_index_is_positional df :
  has_col "FTC Servo Track" df = true ->
  exists raw' t m,
    prepare_data df = (raw', OK (t, m)) /\
    get_col "Spiral Count" (columns t)
    = Some (map (fun k => of_int (Z.of_nat k)) (seq 1 (len df))).
Proof.
  intros Hs. apply has_col_true in Hs. destruct Hs as [s Hs].
  destruct (prepare_data_spec df Hs)
    as (raw' & t & m & Hrun & _ & _ & _ & _ & _ & Hsc & _).
  exists raw', t, m. split; [exact Hrun|].
  rewrite Hsc, range_from_one, map_map. reflexivity.
Qed.

(** C7, as amended: the normalized table consists of the twelve expected
    fields in the fixed order and has the input's row count; every
    expected field that the input lacks, other than the sequence index
    (renumbered 1..n) and the back-difference (derived from the servo
    track), is not-a-number in every row. *)
Theorem normalized_layout_and_fill df :
  has_col "FTC Servo Track" df = true ->
  exists raw' t m,
    prepare_data df = (raw', OK (t, m)) /\
    map fst (columns t) = ordered_columns /\
    len t = len df /\
    (forall c, In c ordered_columns ->
       c <> "Spiral Count" -> c <> "backdiff" ->
       has_col c df = false ->
       get_col c (columns t) = Some (repeat nan (len df))).
Proof.
  intros Hs. apply has_col_true in Hs. destruct Hs as [s Hs].
  destruct (prepare_data_spec df Hs)
    as (raw' & t & m & Hrun & _ & _ & Hother & Hidx & Hnorm & _ & Hrest & _).
  exists raw', t, m. split; [exact Hrun|]. split; [exact Hnorm|].
  split; [exact Hidx|].
  intros c Hc Hn1 Hn2 Habs. apply has_col_false in Habs.
  rewrite (Hrest c Hc Hn1), (Hother c Hn2), Habs, (ordered_columns_In Hc).
  reflexivity.
Qed.

(** C10: [prepare_data] changes the frame it is handed: afterwards that
    frame has the back-difference column and a not-a-number column for
    every expected field it lacked; its other columns are as before (the
    renumbering of the sequence index is done on the copy), and a frame
    that had no back-difference column is no longer what it was. *)
Theorem prepare_data_mutates_input df servo :
  get_col "FTC Servo Track" (columns df) = Some servo ->
  exists raw' t m,
    prepare_data df = (raw', OK (t, m)) /\
    index raw' = index df /\
    get_col "backdiff" (columns raw') = Some (backdiff_of servo) /\
    (forall c, In c ordered_columns -> c <> "backdiff" ->
       has_col c df = false ->
       get_col c (columns raw') = Some (repeat nan (index df))) /\
    (forall c v, c <> "backdiff" ->
       get_col c (columns df) = Some v -> get_col c (columns raw') = Some v) /\
    (has_col "backdiff" df = false -> raw' <> df).
Proof.
  intros Hs.
  destruct (prepare_data_spec df Hs)
    as (raw' & t & m & Hrun & Hidx & Hbd & Hother & _).
  exists raw', t, m. split; [exact Hrun|]. split; [exact Hidx|].
  split; [exact Hbd|]. split; [|split].
  - intros c Hc Hn Habs. apply has_col_false in Habs.
    now rewrite (Hother c Hn), Habs, (ordered_columns_In Hc).
  - intros c v Hn Hv. now rewrite (Hother c Hn), Hv.
  - intros Habs Heq. apply has_col_false in Habs. rewrite Heq in Hbd.
    congruence.
Qed.

(** ** The chart renderer *)

Lemma NormalizedTable_has t c :
  NormalizedTable t -> In c ordered_columns ->
  exists v, get_col c (columns t) = Some v.
Proof.
  intros Hn Hc. apply get_col_fst. unfold NormalizedTable in Hn.
  now rewrite Hn.
Qed.

Lemma plot_thermal_graphs_runs t (m : Z) (label : string) :
  NormalizedTable t ->
  exists fig,
    plot_thermal_graphs {| zero_spiral := Some m |} t label = OK fig /\
    length (axes fig) = 4%nat /\
    Forall (fun ax => vlines ax = [marker_line m]) (axes fig).
Proof.
  intros Hn.
  destruct (NormalizedTable_has (c := "Spiral Count") Hn) as [xs Hxs];
    [unfold ordered_columns; simpl; tauto|].
  destruct (NormalizedTable_has (c := "FTC Servo Track") Hn) as [y1 H1];
    [unfold ordered_columns; simpl; tauto|].
  destruct (NormalizedTable_has (c := "mS FTC time") Hn) as [y2 H2];
    [unfold ordered_columns; simpl; tauto|].
  destruct (NormalizedTable_has (c := "backdiff") Hn) as [y3 H3];
    [unfold ordered_columns; simpl; tauto|].
  destruct (NormalizedTable_has (c := "PWupdate") Hn) as [y4 H4];
    [unfold ordered_columns; simpl; tauto|].
  unfold plot_thermal_graphs, plot_thermal_graphs_body, plot_column,
    df_getitem.
  rewrite Hxs, H1, H2, H3, H4. cbn.
  eexists. split; [reflexivity|].
  split; [reflexivity|]. repeat constructor.
Qed.

(** The marker that [prepare_data] returns is read off the table it
    returns. *)
Lemma prepare_data_marker_of_table df raw' t m :
  prepare_data df = (raw', OK (t, m)) ->
  NormalizedTable t /\ zero_spiral_of t = OK m.
Proof.
  intros Hrun. pose proof Hrun as Hs. apply prepare_data_OK_inv in Hs.
  destruct Hs as [s Hs].
  destruct (prepare_data_spec df Hs)
    as (raw2 & t2 & m2 & Hrun2 & _ & _ & _ & _ & Hnorm & _ & _ & Hm & _).
  rewrite Hrun in Hrun2. injection Hrun2 as <- <- <-. now split.
Qed.

Lemma show_file_inv (g g' : Globals) df raw' t (label : string)
      (fig : Figure F) :
  show_file g df label = (g', raw', OK (t, fig)) ->
  exists m,
    prepare_data df = (raw', OK (t, m)) /\
    g' = {| zero_spiral := Some m |} /\
    plot_thermal_graphs {| zero_spiral := Some m |} t label = OK fig.
Proof.
  unfold show_file.
  destruct (prepare_data df) as [r [[t0 m]|e]]; [|discriminate].
  destruct (plot_thermal_graphs {| zero_spiral := Some m |} t0 label)
    as [fig0|e] eqn:Hp; [|discriminate].
  intros [= <- <- <- <-]. exists m. auto.
Qed.

Lemma show_file_runs (g : Globals) df (label : string) :
  has_col "FTC Servo Track" df = true ->
  exists raw' t m fig,
    prepare_data df = (raw', OK (t, m)) /\
    show_file g df label = ({| zero_spiral := Some m |}, raw', OK (t, fig)) /\
    plot_thermal_graphs {| zero_spiral := Some m |} t label = OK fig.
Proof.
  intros Hs. apply has_col_true in Hs. destruct Hs as [s Hs].
  destruct (prepare_data_spec df Hs)
    as (raw' & t & m & Hrun & _ & _ & _ & _ & Hnorm & _).
  destruct (@plot_thermal_graphs_runs t m label Hnorm) as (fig & Hfig & _).
  exists raw', t, m, fig. split; [exact Hrun|]. split; [|exact Hfig].
  unfold show_file. now rewrite Hrun, Hfig.
Qed.

(** C4: whatever the marker is (-1 and values beyond the rows included),
    the renderer returns a figure of four panels, each with exactly one
    vertical line, at x = marker; and the marker the renderer reads is
    the one [prepare_data] has just returned. *)
Theorem every_panel_has_one_marker_line :
  (forall t (m : Z) (label : string),
     NormalizedTable t ->
     exists fig,
       plot_thermal_graphs {| zero_spiral := Some m |} t label = OK fig /\
       length (axes fig) = 4%nat /\
       Forall (fun ax => vlines ax = [marker_line m]) (axes fig)) /\
  (forall (g : Globals) df (label : string),
     has_col "FTC Servo Track" df = true ->
     exists raw' t m fig,
       prepare_data df = (raw', OK (t, m)) /\
       show_file g df label = ({| zero_spiral := Some m |}, raw', OK (t, fig)) /\
       length (axes fig) = 4%nat /\
       Forall (fun ax => vlines ax = [marker_line m]) (axes fig)).
Proof.
  split.
  - intros t m label Hn. now apply plot_thermal_graphs_runs.
  - intros g df label Hs.
    destruct (@show_file_runs g df label Hs)
      as (raw' & t & m & fig & Hrun & Hshow & Hfig).
    pose proof Hrun as Hnorm. apply prepare_data_marker_of_table in Hnorm.
    destruct Hnorm as [Hnorm _].
    destruct (@plot_thermal_graphs_runs t m label Hnorm)
      as (fig' & Hfig' & Hlen & Hall).
    rewrite Hfig in Hfig'. injection Hfig' as <-.
    exists raw', t, m, fig. auto.
Qed.


End Properties.

(** ** get_subfolders *)

Section Folders.

Variable fs : FileSystem.
Variable path : string.

Lemma subfolders_of_all (entries : list string) :
  Forall (fun f => exists b, os_path_isdir fs (os_path_join fs path f) = OK b)
         entries ->
  subfolders_of fs path entries = OK (filter (is_dir fs path) entries).
Proof.
  induction 1 as [|f rest [b Hb] _ IH]; simpl; [reflexivity|].
  unfold is_dir at 1. rewrite Hb, IH. now destruct b.
Qed.

Lemma subfolders_of_raises (entries : list string) :
  Exists (fun f => exists e, os_path_isdir fs (os_path_join fs path f) = Raise e)
         entries ->
  exists e, subfolders_of fs path entries = Raise e.
Proof.
  induction 1 as [f rest [e He]|f rest _ [e IH]]; simpl.
  - rewrite He. eauto.
  - destruct (os_path_isdir fs (os_path_join fs path f)) as [b|e']; [|eauto].
    rewrite IH. eauto.
Qed.

(** C8: [get_subfolders] always returns a list to its caller. The list
    is empty when the path does not exist and when any of the calls to
    the operating system raises (the existence test, the listing, a
    directory test); otherwise it is the entries of the listing that are
    directories, in the order of the listing. *)
Theorem get_subfolders_never_raises (page : Page) :
  exists page' l,
    get_subfolders fs path page = (page', OK l) /\
    (os_path_exists fs path = OK false -> l = [] /\ page' = page) /\
    (forall e, os_path_exists fs path = Raise e -> l = []) /\
    (os_path_exists fs path = OK true ->
       (forall e, os_listdir fs path = Raise e -> l = []) /\
       (forall entries, os_listdir fs path = OK entries ->
          (Exists (fun f => exists e,
                     os_path_isdir fs (os_path_join fs path f) = Raise e)
                  entries -> l = []) /\
          (Forall (fun f => exists b,
                     os_path_isdir fs (os_path_join fs path f) = OK b)
                  entries ->
           l = filter (is_dir fs path) entries /\ page' = page))).
Proof.
  unfold get_subfolders, try_except, bind, lift, ret, st_error.
  destruct (os_path_exists fs path) as [[|]|e0].
  - destruct (os_listdir fs path) as [entries|e1].
    + destruct (subfolders_of fs path entries) as [l|e2] eqn:Hsub.
      * exists page, l. split; [reflexivity|].
        split; [discriminate|]. split; [discriminate|]. intros _.
        split; [discriminate|]. intros entries' [= <-]. split.
        -- intros Hex. apply subfolders_of_raises in Hex.
           destruct Hex as [e He]. congruence.
        -- intros Hall. apply subfolders_of_all in Hall.
           split; congruence.
      * eexists _, []. split; [reflexivity|].
        split; [discriminate|]. split; [discriminate|]. intros _.
        split; [reflexivity|]. intros entries' [= <-]. split; [reflexivity|].
        intros Hall. apply subfolders_of_all in Hall. congruence.
    + eexists _, []. split; [reflexivity|].
      split; [discriminate|]. split; [discriminate|]. intros _.
      split; [reflexivity|]. discriminate.
  - exists page, []. split; [reflexivity|]. split; [auto|].
    split; [discriminate|]. discriminate.
  - eexists _, []. split; [reflexivity|]. split; [discriminate|].
    split; [reflexivity|]. discriminate.
Qed.

End Folders.

(** ** The claims on concrete inputs *)

(** The scenario of the specification: back-differences 0, 2, 5 and
    marker 3. *)
Example scenario_prepared :
  exists raw' t,
    prepare_data scenario = (raw', OK (t, 3)) /\
    get_col "backdiff" (columns t) = Some [Some 0; Some 2; Some 5] /\
    get_col "Spiral Count" (columns t) = Some [Some 1; Some 2; Some 3].
Proof.
  eexists _, _. split; [vm_compute; reflexivity|]. split; reflexivity.
Qed.


(** C2, as stated, fails on a servo track with a missing value: row 1 of
    the back-difference is 0, not abs(5 - nan). *)
Lemma backdiff_after_gap_counterexample :
  ~ backdiff_is_plain_difference servo_gap.
Proof.
  intros Hc.
  specialize (Hc _ _ _ [Some 5; None] [Some 0; Some 0] 0%nat (Some 5) None
                 eq_refl eq_refl eq_refl eq_refl eq_refl).
  discriminate Hc.
Qed.

Lemma backdiff_rows_witness :
  get_col "FTC Servo Track" (columns servo_gap) = Some [Some 5; None] /\
  exists raw' t m b,
    prepare_data servo_gap = (raw', OK (t, m)) /\
    get_col "backdiff" (columns t) = Some b /\
    length b = 2%nat /\
    ([Some 5; None] <> [] -> nth_error b 0 = Some (Some 0)) /\
    (forall i x y,
       nth_error [Some 5; None] i = Some x ->
       nth_error [Some 5; None] (S i) = Some y ->
       nth_error b (S i)
       = Some (if isnan (fabs (fsub x y)) then Some 0 else fabs (fsub x y))).
Proof.
  split; [reflexivity|].
  exact (@backdiff_rows _ _ servo_gap [Some 5; None] eq_refl).
Defined.



Lemma every_panel_has_one_marker_line_witness :
  (exists fig,
     plot_thermal_graphs {| zero_spiral := Some (-1) |} one_row_table "A1"
     = OK fig /\
     Forall (fun ax => vlines ax = [marker_line (-1)]) (axes fig)) /\
  (exists raw' t m fig,
     prepare_data scenario = (raw', OK (t, m)) /\
     show_file {| zero_spiral := None |} scenario "A1"
     = ({| zero_spiral := Some m |}, raw', OK (t, fig)) /\
     Forall (fun ax => vlines ax = [marker_line m]) (axes fig)).
Proof.
  destruct (@every_panel_has_one_marker_line (option Z) _) as [Hplot Hshow].
  split.
  - destruct (Hplot one_row_table (-1) "A1" eq_refl) as (fig & Hfig & _ & Hall).
    exists fig. split; assumption.
  - destruct (Hshow {| zero_spiral := None |} scenario "A1" eq_refl)
      as (raw' & t & m & fig & Hrun & Hs & _ & Hall).
    exists raw', t, m, fig. repeat split; assumption.
Defined.

Lemma prepare_data_keeps_rows_witness :
  exists raw' t m,
    prepare_data scenario = (raw', OK (t, m)) /\
    len t = 3%nat /\
    get_col "Spiral Number" (columns t) = Some [Some 1; Some 0; Some 0].
Proof.
  destruct (prepare_data_keeps_rows scenario eq_refl)
    as (raw' & t & m & Hrun & Hlen & Hsame & _).
  exists raw', t, m. split; [exact Hrun|]. split; [exact Hlen|].
  apply Hsame.
  - unfold ordered_columns. simpl. tauto.
  - discriminate.
  - discriminate.
  - reflexivity.
Defined.

Lemma sequence_index_is_positional_witness :
  exists raw' t m,
    prepare_data scenario = (raw', OK (t, m)) /\
    get_col "Spiral Count" (columns t) = Some [Some 1; Some 2; Some 3].
Proof.
  exact (sequence_index_is_positional scenario eq_refl).
Defined.

(** C7, as stated, fails on the scenario: it has no back-difference
    field, and the normalized table holds 0, 2, 5 there, not "no value". *)
Lemma derived_field_counterexample :
  ~ absent_fields_are_nan scenario.
Proof.
  intros Hc.
  assert (Hin : In "backdiff" ordered_columns)
    by (unfold ordered_columns; simpl; tauto).
  specialize (Hc _ _ _ "backdiff" eq_refl Hin eq_refl).
  discriminate Hc.
Qed.

Lemma normalized_layout_and_fill_witness :
  exists raw' t m,
    prepare_data scenario = (raw', OK (t, m)) /\
    map fst (columns t) = ordered_columns /\
    get_col "PWupdate" (columns t) = Some [None; None; None].
Proof.
  destruct (normalized_layout_and_fill scenario eq_refl)
    as (raw' & t & m & Hrun & Hcols & _ & Hnan).
  exists raw', t, m. split; [exact Hrun|]. split; [exact Hcols|].
  apply Hnan.
  - unfold ordered_columns. simpl. tauto.
  - discriminate.
  - discriminate.
  - reflexivity.
Defined.

Lemma get_subfolders_never_raises_witness :
  (exists page' l,
     get_subfolders demo_fs "/data" [] = (page', OK l) /\
     l = ["2024-01-01"] /\ page' = []) /\
  (exists page' l,
     get_subfolders demo_fs "/locked" [] = (page', OK l) /\ l = []) /\
  (exists page' l,
     get_subfolders demo_fs "/nowhere" [] = (page', OK l) /\ l = []).
Proof.
  split; [|split].
  - destruct (get_subfolders_never_raises demo_fs "/data" [])
      as (page' & l & Hrun & _ & _ & Hlist).
    exists page', l. split; [exact Hrun|].
    destruct (Hlist eq_refl) as [_ Hentries].
    destruct (Hentries _ eq_refl) as [_ Hall].
    apply Hall. repeat constructor; eexists; reflexivity.
  - destruct (get_subfolders_never_raises demo_fs "/locked" [])
      as (page' & l & Hrun & _ & _ & Hlist).
    exists page', l. split; [exact Hrun|].
    destruct (Hlist eq_refl) as [Hraise _].
    exact (Hraise _ eq_refl).
  - destruct (get_subfolders_never_raises demo_fs "/nowhere" [])
      as (page' & l & Hrun & Hno & _).
    exists page', l. split; [exact Hrun|].
    exact (proj1 (Hno eq_refl)).
Defined.


Lemma prepare_data_mutates_input_witness :
  exists raw' t m,
    prepare_data scenario = (raw', OK (t, m)) /\
    get_col "backdiff" (columns raw') = Some [Some 0; Some 2; Some 5] /\
    get_col "Spiral Count" (columns raw') = Some [None; None; None] /\
    raw' <> scenario.
Proof.
  destruct (@prepare_data_mutates_input _ _ scenario
              [Some 5; Some 7; Some 2] eq_refl)
    as (raw' & t & m & Hrun & _ & Hbd & Hnan & _ & Hne).
  exists raw', t, m. split; [exact Hrun|]. split; [exact Hbd|]. split.
  - apply Hnan.
    + unfold ordered_columns. simpl. tauto.
    + discriminate.
    + reflexivity.
  - apply Hne. reflexivity.
Defined.

(** * Further properties of the code *)

Section MoreProperties.

Context {F : Type} `{Float64 F}.

Implicit Types (df t : DataFrame F) (s v : Series F) (c : string).

(** ** Frames as association lists *)

Lemma get_col_None c (cols : list (string * Series F)) :
  get_col c cols = None <-> ~ In c (map fst cols).
Proof.
  induction cols as [|[k x] rest IH]; simpl.
  - tauto.
  - destruct (String.eqb k c) eqn:E.
    + apply String.eqb_eq in E. split; [discriminate | tauto].
    + apply String.eqb_neq in E. rewrite IH. tauto.
Qed.

Lemma set_col_same c v (cols : list (string * Series F)) :
  get_col c cols = Some v -> set_col c v cols = cols.
Proof.
  induction cols as [|[k x] rest IH]; simpl; [discriminate|].
  destruct (String.eqb k c); [now intros [= ->] | intros Hc; now rewrite IH].
Qed.

Lemma set_col_keys c v (cols : list (string * Series F)) :
  map fst (set_col c v cols)
  = match get_col c cols with
    | Some _ => map fst cols
    | None => (map fst cols ++ [c])%list
    end.
Proof.
  induction cols as [|[k x] rest IH]; simpl; [reflexivity|].
  destruct (String.eqb k c); simpl; [reflexivity|].
  rewrite IH. now destruct (get_col c rest).
Qed.

(** Two column lists with the same labels, all distinct, and the same
    column under each label are the same list. *)
Lemma columns_ext (l1 : list (string * Series F)) :
  forall l2,
    map fst l1 = map fst l2 -> NoDup (map fst l1) ->
    (forall c, In c (map fst l1) -> get_col c l1 = get_col c l2) ->
    l1 = l2.
Proof.
  induction l1 as [|[k x] r1 IH]; intros [|[k' x'] r2] Hk Hnd Hget;
    simpl in Hk; try discriminate; [reflexivity|].
  injection Hk as <- Hk. inversion Hnd as [|? ? Hnot Hnd']; subst.
  assert (Hx : x = x').
  { specialize (Hget k (or_introl eq_refl)). simpl in Hget.
    rewrite String.eqb_refl in Hget. congruence. }
  subst x'. f_equal. apply IH; auto.
  intros c Hc. specialize (Hget c (or_intror Hc)). simpl in Hget.
  destruct (String.eqb k c) eqn:E; [|exact Hget].
  apply String.eqb_eq in E. subst c. contradiction.
Qed.

Lemma ordered_columns_NoDup : NoDup ordered_columns.
Proof.
  unfold ordered_columns.
  repeat (constructor; [simpl; intuition discriminate|]). constructor.
Qed.

Lemma fill_missing_present (cs : list string) df :
  (forall c, In c cs -> has_col c df = true) -> fill_missing cs df = df.
Proof.
  induction cs as [|a cs IH]; simpl; intros Hall; [reflexivity|].
  rewrite (Hall a) by now left. apply IH. intros c Hc. apply Hall. now right.
Qed.

Lemma df_setitem_same df c v :
  get_col c (columns df) = Some v -> df_setitem df c v = df.
Proof.
  intros Hc. unfold df_setitem. erewrite set_col_same by exact Hc.
  now destruct df.
Qed.

(** ** The table is a function of the source fields *)

Lemma In_source_fields c :
  In c source_fields <->
  In c ordered_columns /\ c <> "Spiral Count" /\ c <> "backdiff".
Proof.
  unfold source_fields. rewrite filter_In, andb_true_iff, !negb_true_iff.
  rewrite !String.eqb_neq. tauto.
Qed.

Lemma servo_in_source_fields : In "FTC Servo Track" source_fields.
Proof.
  apply In_source_fields. split; [|split; discriminate].
  unfold ordered_columns. simpl. tauto.
Qed.

Lemma prepare_data_table_ext df1 df2 raw1 raw2 t1 t2 (m1 m2 : Z) :
  prepare_data df1 = (raw1, OK (t1, m1)) ->
  prepare_data df2 = (raw2, OK (t2, m2)) ->
  index df1 = index df2 ->
  (forall c, In c source_fields -> field_or_nan df1 c = field_or_nan df2 c) ->
  t1 = t2 /\ m1 = m2.
Proof.
  intros Hrun1 Hrun2 Hidx Hsame.
  pose proof Hrun1 as Hs1. apply prepare_data_OK_inv in Hs1.
  destruct Hs1 as [s1 Hs1].
  pose proof Hrun2 as Hs2. apply prepare_data_OK_inv in Hs2.
  destruct Hs2 as [s2 Hs2].
  assert (Hs : s1 = s2).
  { pose proof (Hsame _ servo_in_source_fields) as E.
    unfold field_or_nan in E. now rewrite Hs1, Hs2 in E. }
  subst s2.
  destruct (prepare_data_spec df1 Hs1)
    as (r1 & u1 & n1 & Hr1 & _ & Hbd1 & Ho1 & Hi1 & Hn1 & Hsc1 & Hrest1 & Hz1 & _).
  rewrite Hrun1 in Hr1. injection Hr1 as <- <- <-.
  destruct (prepare_data_spec df2 Hs2)
    as (r2 & u2 & n2 & Hr2 & _ & Hbd2 & Ho2 & Hi2 & Hn2 & Hsc2 & Hrest2 & Hz2 & _).
  rewrite Hrun2 in Hr2. injection Hr2 as <- <- <-.
  assert (Ht : t1 = t2).
  { assert (Hcols : columns t1 = columns t2); cycle 1.
    { destruct t1 as [i1 c1], t2 as [i2 c2].
      cbn [index columns] in Hcols, Hi1, Hi2. congruence. }
    unfold NormalizedTable in Hn1, Hn2.
    apply columns_ext.
    - congruence.
    - rewrite Hn1. apply ordered_columns_NoDup.
    - intros c Hc. rewrite Hn1 in Hc.
      destruct (String.eqb c "Spiral Count") eqn:E1.
      { apply String.eqb_eq in E1. subst c. rewrite Hsc1, Hsc2.
        now rewrite Hidx. }
      apply String.eqb_neq in E1.
      rewrite (Hrest1 c Hc E1), (Hrest2 c Hc E1).
      destruct (String.eqb c "backdiff") eqn:E2.
      { apply String.eqb_eq in E2. subst c. now rewrite Hbd1, Hbd2. }
      apply String.eqb_neq in E2.
      rewrite (Ho1 c E2), (Ho2 c E2), (ordered_columns_In Hc).
      assert (Hin : In c source_fields) by (apply In_source_fields; auto).
      specialize (Hsame c Hin). unfold field_or_nan in Hsame.
      revert Hsame.
      destruct (get_col c (columns df1)), (get_col c (columns df2));
        intros E; now rewrite E. }
  split; [exact Ht|]. subst t2. congruence.
Qed.


(** X2: a second call on the frame that the first call left behind
    changes nothing and returns the same table and marker. *)
Theorem prepare_data_twice df raw' t (m : Z) :
  prepare_data df = (raw', OK (t, m)) ->
  prepare_data raw' = (raw', OK (t, m)).
Proof.
  intros Hrun.
  pose proof Hrun as Hs. apply prepare_data_OK_inv in Hs. destruct Hs as [s Hs].
  destruct (prepare_data_spec df Hs)
    as (r & u & n & Hr & Hidx & Hbd & Hother & _).
  rewrite Hrun in Hr. injection Hr as <- <- <-.
  assert (Hs' : get_col "FTC Servo Track" (columns raw') = Some s).
  { rewrite Hother by discriminate. now rewrite Hs. }
  destruct (prepare_data_returns raw' Hs')
    as (raw2 & t2 & m2 & Hrun2 & Hraw2 & _).
  assert (Hfix : raw2 = raw').
  { rewrite Hraw2. erewrite df_setitem_same by exact Hbd.
    apply fill_missing_present. intros c Hc. apply has_col_true.
    destruct (String.eqb c "backdiff") eqn:E.
    - apply String.eqb_eq in E. subst c. eauto.
    - apply String.eqb_neq in E. rewrite (Hother c E), (ordered_columns_In Hc).
      destruct (get_col c (columns df)); eauto. }
  rewrite Hfix in Hrun2. clear Hfix Hraw2 raw2.
  assert (Hsame : forall c, In c source_fields ->
                            field_or_nan df c = field_or_nan raw' c).
  { intros c Hc. apply In_source_fields in Hc. destruct Hc as (Hc & _ & Hn).
    unfold field_or_nan. rewrite (Hother c Hn), (ordered_columns_In Hc).
    destruct (get_col c (columns df)); reflexivity. }
  destruct (@prepare_data_table_ext _ _ _ _ _ _ _ _ Hrun Hrun2 (eq_sym Hidx)
              Hsame) as [<- <-].
  exact Hrun2.
Qed.


(** X4: no cell of the back-difference column is not-a-number, whatever
    the servo track holds. *)
Theorem backdiff_has_no_nan df :
  has_col "FTC Servo Track" df = true ->
  exists raw' t m b,
    prepare_data df = (raw', OK (t, m)) /\
    get_col "backdiff" (columns t) = Some b /\
    get_col "backdiff" (columns raw') = Some b /\
    Forall (fun x => isnan x = false) b.
Proof.
  intros Hs. apply has_col_true in Hs. destruct Hs as [s Hs].
  destruct (prepare_data_spec df Hs)
    as (raw' & t & m & Hrun & _ & Hbd & _ & _ & _ & _ & Hrest & _).
  exists raw', t, m, (backdiff_of s). split; [exact Hrun|]. split.
  { rewrite Hrest; [exact Hbd | unfold ordered_columns; simpl; tauto
                   | discriminate]. }
  split; [exact Hbd|].
  unfold backdiff_of, fillna. apply Forall_map, Forall_forall. intros x _.
  destruct (isnan x) eqn:E; [apply isnan_of_int | exact E].
Qed.

(** ** Well-formed frames stay well-formed *)

Lemma In_get_col c v (cols : list (string * Series F)) :
  NoDup (map fst cols) -> In (c, v) cols -> get_col c cols = Some v.
Proof.
  induction cols as [|[k x] rest IH]; simpl; intros Hnd Hin; [contradiction|].
  inversion Hnd as [|? ? Hnot Hnd']; subst.
  destruct Hin as [[= -> ->]|Hin].
  - now rewrite String.eqb_refl.
  - destruct (String.eqb k c) eqn:E; [|auto].
    apply String.eqb_eq in E. subst k. exfalso. apply Hnot.
    apply (in_map fst) in Hin. exact Hin.
Qed.

Lemma set_col_NoDup c v (cols : list (string * Series F)) :
  NoDup (map fst cols) -> NoDup (map fst (set_col c v cols)).
Proof.
  intros Hnd. rewrite set_col_keys.
  destruct (get_col c cols) eqn:E; [exact Hnd|].
  apply get_col_None in E.
  apply NoDup_app; [exact Hnd | constructor; [intros [] | constructor] |].
  intros a Ha [<-|[]]. contradiction.
Qed.

Lemma set_col_lengths c v (n : nat) (cols : list (string * Series F)) :
  length v = n ->
  Forall (fun p => length (snd p) = n) cols ->
  Forall (fun p => length (snd p) = n) (set_col c v cols).
Proof.
  intros Hv. induction 1 as [|[k x] rest Hx Hrest IH]; simpl.
  - constructor; [exact Hv | constructor].
  - destruct (String.eqb k c); constructor; auto.
Qed.

Lemma df_setitem_RawRecordSet df c v :
  RawRecordSet df -> length v = index df -> RawRecordSet (df_setitem df c v).
Proof.
  intros [Hnd Hlen] Hv. split; simpl.
  - now apply set_col_NoDup.
  - now apply set_col_lengths.
Qed.

Lemma fill_missing_RawRecordSet (cs : list string) :
  forall df, RawRecordSet df -> RawRecordSet (fill_missing cs df).
Proof.
  induction cs as [|a cs IH]; intros df Hdf; simpl; [exact Hdf|].
  apply IH. destruct (has_col a df); [exact Hdf|].
  apply df_setitem_RawRecordSet; [exact Hdf | apply repeat_length].
Qed.

Lemma prepare_data_keeps_frames_well_formed_aux df :
  RawRecordSet df ->
  has_col "FTC Servo Track" df = true ->
  exists raw' t m,
    prepare_data df = (raw', OK (t, m)) /\
    index t = index df /\
    RawRecordSet raw' /\ RawRecordSet t.
Proof.
  intros Hdf Hs. apply has_col_true in Hs. destruct Hs as [s Hs].
  destruct (prepare_data_returns df Hs)
    as (raw' & t & m & Hrun & Hraw & Hidx & Hnorm & Hget & _).
  assert (Hlen_s : length s = index df)
    by (eapply RawRecordSet_length; eassumption).
  assert (Hraw' : RawRecordSet raw').
  { subst raw'. apply fill_missing_RawRecordSet.
    apply df_setitem_RawRecordSet; [exact Hdf|].
    now rewrite backdiff_of_length. }
  assert (Hidx' : index raw' = index df)
    by (subst raw'; now rewrite index_fill).
  exists raw', t, m. split; [exact Hrun|]. split; [exact Hidx|].
  split; [exact Hraw'|].
  unfold NormalizedTable in Hnorm.
  assert (Hnd : NoDup (map fst (columns t)))
    by (rewrite Hnorm; apply ordered_columns_NoDup).
  split; [exact Hnd|].
  apply Forall_forall. intros [c v] Hin. simpl.
  assert (Hc : In c ordered_columns).
  { rewrite <- Hnorm. apply (in_map fst) in Hin. exact Hin. }
  apply (In_get_col _ _ _ Hnd) in Hin. rewrite (Hget c Hc) in Hin.
  destruct (String.eqb c "Spiral Count").
  - injection Hin as <-.
    now rewrite range_from_one, !length_map, length_seq.
  - rewrite Hidx, <- Hidx'. eapply RawRecordSet_length; eassumption.
Qed.

(** X5: a well-formed input (distinct labels, every column as long as
    the index) is still well-formed after the call, and the normalized
    table is well-formed too. *)
Theorem prepare_data_keeps_frames_well_formed df :
  RawRecordSet df ->
  has_col "FTC Servo Track" df = true ->
  exists raw' t m,
    prepare_data df = (raw', OK (t, m)) /\
    RawRecordSet raw' /\ RawRecordSet t.
Proof.
  intros Hdf Hs.
  destruct (prepare_data_keeps_frames_well_formed_aux Hdf Hs)
    as (raw' & t & m & Hrun & _ & Hraw & Ht).
  exists raw', t, m. auto.
Qed.

Lemma fill_missing_keys (cs : list string) :
  forall df,
  exists added,
    map fst (columns (fill_missing cs df))
    = (map fst (columns df) ++ added)%list /\
    Forall (fun c => In c cs /\ has_col c df = false) added.
Proof.
  induction cs as [|a cs IH]; intros df; simpl.
  - exists []. split; [now rewrite app_nil_r | constructor].
  - destruct (has_col a df) eqn:Ha.
    + destruct (IH df) as (added & Hk & Hadd). exists added.
      split; [exact Hk|]. eapply Forall_impl; [|exact Hadd].
      simpl. tauto.
    + destruct (IH (df_setitem df a (repeat nan (index df))))
        as (added & Hk & Hadd).
      exists (a :: added). rewrite Hk. simpl. rewrite set_col_keys.
      apply has_col_false in Ha. rewrite Ha, <- app_assoc. split; [reflexivity|].
      constructor; [split; [now left | now apply has_col_false]|].
      eapply Forall_impl; [|exact Hadd]. simpl. intros c [Hc Hno].
      split; [now right|]. apply has_col_false. apply has_col_false in Hno.
      simpl in Hno. destruct (String.eqb a c) eqn:E.
      * apply String.eqb_eq in E. subst c. now rewrite get_set_same in Hno.
      * apply String.eqb_neq in E. now rewrite get_set_other in Hno.
Qed.

(** X6: in the frame handed to [prepare_data] the columns that were
    there keep their positions; the columns the call adds come after
    them and are expected fields that the frame lacked. *)
Theorem prepare_data_appends_columns df :
  has_col "FTC Servo Track" df = true ->
  exists raw' t m added,
    prepare_data df = (raw', OK (t, m)) /\
    map fst (columns raw') = (map fst (columns df) ++ added)%list /\
    Forall (fun c => In c ordered_columns /\ has_col c df = false) added.
Proof.
  intros Hs. apply has_col_true in Hs. destruct Hs as [s Hs].
  destruct (prepare_data_returns df Hs)
    as (raw' & t & m & Hrun & Hraw & _).
  destruct (fill_missing_keys ordered_columns
              (df_setitem df "backdiff" (backdiff_of s)))
    as (added & Hk & Hadd).
  rewrite <- Hraw in Hk.
  assert (Hin_bd : In "backdiff" ordered_columns)
    by (unfold ordered_columns; simpl; tauto).
  assert (Hadd' : Forall (fun c => In c ordered_columns /\ has_col c df = false)
                         added).
  { eapply Forall_impl; [|exact Hadd]. simpl. intros c [Hc Hno].
    split; [exact Hc|]. apply has_col_false. apply has_col_false in Hno.
    simpl in Hno. destruct (String.eqb "backdiff" c) eqn:E.
    - apply String.eqb_eq in E. subst c. now rewrite get_set_same in Hno.
    - apply String.eqb_neq in E. now rewrite get_set_other in Hno. }
  simpl in Hk. rewrite set_col_keys in Hk.
  destruct (get_col "backdiff" (columns df)) eqn:Ebd.
  - exists raw', t, m, added. auto.
  - exists raw', t, m, ("backdiff" :: added).
    split; [exact Hrun|]. split.
    + now rewrite Hk, <- app_assoc.
    + constructor; [|exact Hadd']. split; [exact Hin_bd|].
      now apply has_col_false.
Qed.

(** ** The chart renderer, panel by panel *)

Lemma plot_thermal_graphs_figure t (m : Z) (label : string)
      (xs y1 y2 y3 y4 : Series F) :
  get_col "Spiral Count" (columns t) = Some xs ->
  get_col "FTC Servo Track" (columns t) = Some y1 ->
  get_col "mS FTC time" (columns t) = Some y2 ->
  get_col "backdiff" (columns t) = Some y3 ->
  get_col "PWupdate" (columns t) = Some y4 ->
  plot_thermal_graphs {| zero_spiral := Some m |} t label
  = OK {| suptitle := "Thermal Analysis: " ++ label;
          axes :=
            [ {| vlines := [marker_line m];
                 lines := [{| xdata := xs; ydata := y1;
                              line_color := "#1f77b4" |}];
                 title := "FTC Servo Track vs Spiral Count";
                 xlabel := ""; ylabel := "Servo Track"; grid := true |};
              {| vlines := [marker_line m];
                 lines := [{| xdata := xs; ydata := y2;
                              line_color := "#2ca02c" |}];
                 title := "mS FTC Time vs Spiral Count";
                 xlabel := ""; ylabel := "Time (ms)"; grid := true |};
              {| vlines := [marker_line m];
                 lines := [{| xdata := xs; ydata := y3;
                              line_color := "#d62728" |}];
                 title := "Backdiff vs Spiral Count";
                 xlabel := "Spiral Count"; ylabel := "Difference";
                 grid := true |};
              {| vlines := [marker_line m];
                 lines := [{| xdata := xs; ydata := y4;
                              line_color := "#9467bd" |}];
                 title := "PWupdate vs Spiral Count";
                 xlabel := "Spiral Count"; ylabel := "Value";
                 grid := true |} ];
          tight_layout := true |}.
Proof.
  intros Hxs H1 H2 H3 H4.
  unfold plot_thermal_graphs, plot_thermal_graphs_body, plot_column,
    df_getitem.
  rewrite Hxs, H1, H2, H3, H4. reflexivity.
Qed.

(** X7: what the renderer does with what it is given. With the module
    global unbound it raises NameError, whatever the table; with the
    global bound it raises KeyError for the first column, in reading
    order, that the table lacks; it returns a figure when there is
    none. *)
Theorem plot_thermal_graphs_outcome (g : Globals) t (label : string) :
  (zero_spiral g = None ->
     plot_thermal_graphs g t label = Raise (NameError "zero_spiral")) /\
  (forall c,
     zero_spiral g <> None ->
     find (fun c => negb (has_col c t)) plotted_columns = Some c ->
     plot_thermal_graphs g t label = Raise (KeyError c)) /\
  (zero_spiral g <> None ->
     find (fun c => negb (has_col c t)) plotted_columns = None ->
     exists fig, plot_thermal_graphs g t label = OK fig).
Proof.
  destruct g as [[m|]]; cbn [zero_spiral].
  2: { split; [reflexivity|]. split; [intros c Hc | intros Hc]; congruence. }
  split; [discriminate|].
  unfold plotted_columns, has_col. cbn [find].
  destruct (get_col "Spiral Count" (columns t)) as [xs|] eqn:E0; cbn [negb].
  2: { split; [intros c _ [= <-] | discriminate].
       unfold plot_thermal_graphs, plot_thermal_graphs_body, plot_column,
         df_getitem. now rewrite E0. }
  destruct (get_col "FTC Servo Track" (columns t)) as [y1|] eqn:E1; cbn [negb].
  2: { split; [intros c _ [= <-] | discriminate].
       unfold plot_thermal_graphs, plot_thermal_graphs_body, plot_column,
         df_getitem. now rewrite E0, E1. }
  destruct (get_col "mS FTC time" (columns t)) as [y2|] eqn:E2; cbn [negb].
  2: { split; [intros c _ [= <-] | discriminate].
       unfold plot_thermal_graphs, plot_thermal_graphs_body, plot_column,
         df_getitem. now rewrite E0, E1, E2. }
  destruct (get_col "backdiff" (columns t)) as [y3|] eqn:E3; cbn [negb].
  2: { split; [intros c _ [= <-] | discriminate].
       unfold plot_thermal_graphs, plot_thermal_graphs_body, plot_column,
         df_getitem. now rewrite E0, E1, E2, E3. }
  destruct (get_col "PWupdate" (columns t)) as [y4|] eqn:E4; cbn [negb].
  2: { split; [intros c _ [= <-] | discriminate].
       unfold plot_thermal_graphs, plot_thermal_graphs_body, plot_column,
         df_getitem. now rewrite E0, E1, E2, E3, E4. }
  split; [discriminate|]. intros _ _.
  eexists. eapply plot_thermal_graphs_figure; eassumption.
Qed.

(** X8: the four panels, in the order of [axes.flat], plot servo track,
    elapsed time, back-difference and power update against the sequence
    index: one line each, over the whole column, with the grid on; the
    figure title ends with the label. *)
Theorem panels_plot_the_four_fields t (m : Z) (label : string) :
  (forall c, In c plotted_columns -> has_col c t = true) ->
  exists fig xs,
    plot_thermal_graphs {| zero_spiral := Some m |} t label = OK fig /\
    get_col "Spiral Count" (columns t) = Some xs /\
    suptitle fig = "Thermal Analysis: " ++ label /\
    Forall2
      (fun c ax =>
         exists ys, get_col c (columns t) = Some ys /\
                    map xdata (lines ax) = [xs] /\
                    map ydata (lines ax) = [ys] /\
                    grid ax = true)
      ["FTC Servo Track"; "mS FTC time"; "backdiff"; "PWupdate"]
      (axes fig).
Proof.
  intros Hall.
  assert (Hcol : forall c, In c plotted_columns ->
                           exists v, get_col c (columns t) = Some v).
  { intros c Hc. apply has_col_true. now apply Hall. }
  destruct (Hcol "Spiral Count") as [xs Hxs];
    [unfold plotted_columns; simpl; tauto|].
  destruct (Hcol "FTC Servo Track") as [y1 H1];
    [unfold plotted_columns; simpl; tauto|].
  destruct (Hcol "mS FTC time") as [y2 H2];
    [unfold plotted_columns; simpl; tauto|].
  destruct (Hcol "backdiff") as [y3 H3];
    [unfold plotted_columns; simpl; tauto|].
  destruct (Hcol "PWupdate") as [y4 H4];
    [unfold plotted_columns; simpl; tauto|].
  eexists _, xs. split.
  { eapply plot_thermal_graphs_figure; eassumption. }
  split; [exact Hxs|]. split; [reflexivity|]. cbn [axes].
  repeat constructor; eexists; (split; [eassumption|]); repeat split.
Qed.

(** ** Prepare, then plot *)


Lemma table_column_length df raw' t (m : Z) c v :
  RawRecordSet df ->
  prepare_data df = (raw', OK (t, m)) ->
  get_col c (columns t) = Some v -> length v = index df.
Proof.
  intros Hdf Hrun Hv.
  pose proof Hrun as Hs. apply prepare_data_OK_inv in Hs. destruct Hs as [s Hs].
  assert (Hhas : has_col "FTC Servo Track" df = true)
    by (apply has_col_true; eauto).
  destruct (prepare_data_keeps_frames_well_formed_aux Hdf Hhas)
    as (raw2 & t2 & m2 & Hrun2 & Hidx & _ & Ht).
  rewrite Hrun in Hrun2. injection Hrun2 as <- <- <-.
  rewrite <- Hidx. eapply RawRecordSet_length; eassumption.
Qed.

(** X10: in the figure made from a well-formed file of n rows every
    plotted line has 1, 2, ..., n as its x data and n values as its y
    data, so x and y always match in length. *)
Theorem plotted_lines_match_in_length (g : Globals) df (label : string) :
  RawRecordSet df ->
  has_col "FTC Servo Track" df = true ->
  exists g' raw' t fig,
    show_file g df label = (g', raw', OK (t, fig)) /\
    Forall
      (fun ax =>
         Forall (fun ln =>
                   xdata ln = map (fun k => of_int (Z.of_nat k)) (seq 1 (len df))
                   /\ length (ydata ln) = len df)
                (lines ax))
      (axes fig).
Proof.
  intros Hdf Hs.
  destruct (@show_file_runs _ _ g df label Hs)
    as (raw' & t & m & fig & Hrun & Hshow & Hplot).
  exists {| zero_spiral := Some m |}, raw', t, fig. split; [exact Hshow|].
  pose proof Hs as Hs'. apply has_col_true in Hs'. destruct Hs' as [s Hs'].
  destruct (prepare_data_spec df Hs')
    as (raw2 & t2 & m2 & Hrun2 & _ & _ & _ & _ & Hnorm & Hsc & _).
  rewrite Hrun in Hrun2. injection Hrun2 as <- <- <-.
  rewrite range_from_one, map_map in Hsc.
  destruct (NormalizedTable_has (c := "FTC Servo Track") Hnorm) as [y1 H1];
    [unfold ordered_columns; simpl; tauto|].
  destruct (NormalizedTable_has (c := "mS FTC time") Hnorm) as [y2 H2];
    [unfold ordered_columns; simpl; tauto|].
  destruct (NormalizedTable_has (c := "backdiff") Hnorm) as [y3 H3];
    [unfold ordered_columns; simpl; tauto|].
  destruct (NormalizedTable_has (c := "PWupdate") Hnorm) as [y4 H4];
    [unfold ordered_columns; simpl; tauto|].
  rewrite (@plot_thermal_graphs_figure t m label _ _ _ _ _ Hsc H1 H2 H3 H4)
    in Hplot.
  injection Hplot as <-. cbn [axes lines]. unfold len.
  repeat constructor; cbn [xdata ydata];
    eapply table_column_length; eassumption.
Qed.

Lemma show_file_raise_inv (g g' : Globals) df raw' (label : string) e :
  show_file g df label = (g', raw', Raise e) ->
  has_col "FTC Servo Track" df = false /\
  e = KeyError "FTC Servo Track" /\ g' = g /\ raw' = df.
Proof.
  intros Hshow.
  destruct (has_col "FTC Servo Track" df) eqn:Hs.
  - destruct (@show_file_runs _ _ g df label Hs)
      as (raw2 & t & m & fig & _ & Hshow2 & _).
    rewrite Hshow in Hshow2. discriminate Hshow2.
  - apply has_col_false in Hs.
    unfold show_file in Hshow. rewrite (prepare_data_raises df Hs) in Hshow.
    injection Hshow as <- <- <-. auto.
Qed.


(** X12: a log with a header and no rows goes through: the table has no
    rows, the marker is -1, and the four panels carry the marker line
    at -1 and a line without points. *)
Theorem empty_log_is_handled (g : Globals) df (label : string) :
  RawRecordSet df ->
  has_col "FTC Servo Track" df = true ->
  index df = 0%nat ->
  exists raw' t fig,
    show_file g df label = ({| zero_spiral := Some (-1) |}, raw', OK (t, fig)) /\
    len t = 0%nat /\
    (forall c v, get_col c (columns t) = Some v -> v = []) /\
    Forall (fun ax => vlines ax = [marker_line (-1)] /\
                      Forall (fun ln => xdata ln = [] /\ ydata ln = [])
                             (lines ax))
           (axes fig).
Proof.
  intros Hdf Hs Hzero.
  destruct (@show_file_runs _ _ g df label Hs)
    as (raw' & t & m & fig & Hrun & Hshow & Hplot).
  pose proof Hs as Hs'. apply has_col_true in Hs'. destruct Hs' as [s Hs'].
  destruct (prepare_data_spec df Hs')
    as (raw2 & t2 & m2 & Hrun2 & _ & _ & _ & Hidx & Hnorm & _ & _ & _ & Hm).
  rewrite Hrun in Hrun2. injection Hrun2 as <- <- <-.
  assert (Hm1 : m = -1).
  { unfold zero_spiral_rows in Hm. rewrite Hzero in Hm. exact Hm. }
  clear Hm. subst m.
  assert (Hnil : forall c v, get_col c (columns t) = Some v -> v = []).
  { intros c v Hv. apply length_zero_iff_nil. rewrite <- Hzero.
    eapply table_column_length; eassumption. }
  exists raw', t, fig. split; [exact Hshow|].
  split; [unfold len; congruence|]. split; [exact Hnil|].
  destruct (NormalizedTable_has (c := "Spiral Count") Hnorm) as [xs Hxs];
    [unfold ordered_columns; simpl; tauto|].
  destruct (NormalizedTable_has (c := "FTC Servo Track") Hnorm) as [y1 H1];
    [unfold ordered_columns; simpl; tauto|].
  destruct (NormalizedTable_has (c := "mS FTC time") Hnorm) as [y2 H2];
    [unfold ordered_columns; simpl; tauto|].
  destruct (NormalizedTable_has (c := "backdiff") Hnorm) as [y3 H3];
    [unfold ordered_columns; simpl; tauto|].
  destruct (NormalizedTable_has (c := "PWupdate") Hnorm) as [y4 H4];
    [unfold ordered_columns; simpl; tauto|].
  rewrite (@plot_thermal_graphs_figure t (-1) label _ _ _ _ _ Hxs H1 H2 H3 H4)
    in Hplot.
  injection Hplot as <-. cbn [axes lines vlines].
  rewrite (Hnil _ _ Hxs), (Hnil _ _ H1), (Hnil _ _ H2), (Hnil _ _ H3),
    (Hnil _ _ H4).
  repeat constructor.
Qed.

End MoreProperties.

(** ** The folder lister and the page *)

Lemma subfolders_of_sound (fs : FileSystem) (path : string)
      (entries : list string) :
  forall l, subfolders_of fs path entries = OK l ->
  forall f, In f l ->
    In f entries /\ os_path_isdir fs (os_path_join fs path f) = OK true.
Proof.
  induction entries as [|a rest IH]; simpl; intros l Hl f Hf.
  - injection Hl as <-. contradiction.
  - destruct (os_path_isdir fs (os_path_join fs path a)) as [b|e] eqn:Ha;
      [|discriminate].
    destruct (subfolders_of fs path rest) as [l'|e]; [|discriminate].
    injection Hl as <-. destruct b.
    + destruct Hf as [<-|Hf]; [auto|].
      destruct (IH l' eq_refl f Hf). auto.
    + destruct (IH l' eq_refl f Hf). auto.
Qed.

(** X13: a call of [get_subfolders] either leaves the page as it was,
    and then every name it returns was listed under the path and tested
    to be a directory; or it puts exactly one "Access Error" message on
    the page, and then it returns the empty list. *)
Theorem get_subfolders_reports (fs : FileSystem) (path : string)
        (page page' : Page) (l : list string) :
  get_subfolders fs path page = (page', OK l) ->
  (page' = page /\
   forall f, In f l ->
     exists entries,
       os_listdir fs path = OK entries /\ In f entries /\
       os_path_isdir fs (os_path_join fs path f) = OK true) \/
  (exists e,
     page' = (page ++ [("Access Error: " ++ str_of_exception e)%string])%list /\
     l = []).
Proof.
  unfold get_subfolders, try_except, bind, lift, ret, st_error.
  destruct (os_path_exists fs path) as [[|]|e0].
  - destruct (os_listdir fs path) as [entries|e1].
    + destruct (subfolders_of fs path entries) as [l0|e2] eqn:Hsub.
      * intros [= <- <-]. left. split; [reflexivity|]. intros f Hf.
        exists entries. split; [reflexivity|].
        eapply subfolders_of_sound; eassumption.
      * intros [= <- <-]. right. eexists. split; reflexivity.
    + intros [= <- <-]. right. eexists. split; reflexivity.
  - intros [= <- <-]. left. split; [reflexivity|]. intros f [].
  - intros [= <- <-]. right. eexists. split; reflexivity.
Qed.

(** ** The select boxes *)

Lemma list_index_found (x : string) (xs : list string) :
  list_contains x xs = true ->
  exists i, list_index x xs = Some i /\ nth_error xs i = Some x /\
            forall j, (j < i)%nat -> nth_error xs j <> Some x.
Proof.
  unfold list_contains. induction xs as [|y rest IH]; simpl; [discriminate|].
  rewrite (String.eqb_sym x y). destruct (String.eqb y x) eqn:E.
  - intros _. apply String.eqb_eq in E. subst y. exists 0%nat.
    repeat split; auto. intros j Hj. lia.
  - simpl. intros Hin. destruct (IH Hin) as (i & Hi & Hnth & Hfirst).
    exists (S i). rewrite Hi. repeat split; auto.
    intros [|j] Hj; simpl.
    + apply String.eqb_neq in E. congruence.
    + apply Hfirst. lia.
Qed.

(** X14: the index handed to a select box is always a position of the
    option list, never an error. It is the first position of the stored
    choice when that is still among the options, and position 0, the
    "-- Select --" entry, when it is not (or when nothing was chosen). *)
Theorem selectbox_index_is_valid (folders : list string) (stored : string) :
  exists i,
    selectbox_index (select_options folders) stored = Some i /\
    (i < length (select_options folders))%nat /\
    nth_error (select_options folders) i
    = Some (if list_contains stored (select_options folders)
            then stored else placeholder) /\
    (forall j, (j < i)%nat ->
               nth_error (select_options folders) j <> Some stored) /\
    (stored = placeholder -> i = 0%nat).
Proof.
  unfold selectbox_index.
  destruct (list_contains stored (select_options folders)) eqn:E.
  - destruct (list_index_found _ _ E) as (i & Hi & Hnth & Hfirst).
    exists i. split; [exact Hi|]. split.
    { apply nth_error_Some. congruence. }
    split; [exact Hnth|]. split; [exact Hfirst|].
    intros ->. unfold select_options in Hi. cbn [list_index] in Hi.
    rewrite String.eqb_refl in Hi. congruence.
  - exists 0%nat. split; [reflexivity|]. split; [simpl; lia|].
    split; [reflexivity|]. split; [intros j Hj; lia | reflexivity].
Qed.

(** ** The further properties on concrete inputs *)

Lemma scenario_RawRecordSet : RawRecordSet scenario.
Proof.
  split.
  - repeat (constructor; [simpl; intuition discriminate|]). constructor.
  - repeat constructor.
Defined.

Lemma header_only_RawRecordSet : RawRecordSet header_only.
Proof.
  split.
  - repeat (constructor; [simpl; intuition discriminate|]). constructor.
  - repeat constructor.
Defined.


Lemma prepare_data_twice_witness :
  exists raw' t m,
    prepare_data scenario = (raw', OK (t, m)) /\
    prepare_data raw' = (raw', OK (t, m)).
Proof.
  eexists _, _, _. split; [vm_compute; reflexivity|].
  apply (@prepare_data_twice (option Z) _ scenario).
  vm_compute. reflexivity.
Defined.


Lemma backdiff_has_no_nan_witness :
  exists raw' t m b,
    prepare_data servo_gap = (raw', OK (t, m)) /\
    get_col "backdiff" (columns t) = Some b /\
    get_col "backdiff" (columns raw') = Some b /\
    Forall (fun x => isnan x = false) b.
Proof. exact (backdiff_has_no_nan servo_gap eq_refl). Defined.

Lemma prepare_data_keeps_frames_well_formed_witness :
  exists raw' t m,
    prepare_data scenario = (raw', OK (t, m)) /\
    RawRecordSet raw' /\ RawRecordSet t.
Proof.
  exact (prepare_data_keeps_frames_well_formed scenario_RawRecordSet eq_refl).
Defined.

Lemma prepare_data_appends_columns_witness :
  exists raw' t m added,
    prepare_data scenario = (raw', OK (t, m)) /\
    map fst (columns raw') = (map fst (columns scenario) ++ added)%list /\
    Forall (fun c => In c ordered_columns /\ has_col c scenario = false) added.
Proof. exact (prepare_data_appends_columns scenario eq_refl). Defined.

Lemma plot_thermal_graphs_outcome_witness :
  plot_thermal_graphs {| zero_spiral := None |} one_row_table "A1"
  = Raise (NameError "zero_spiral") /\
  plot_thermal_graphs {| zero_spiral := Some 3 |} scenario "A1"
  = Raise (KeyError "Spiral Count") /\
  exists fig,
    plot_thermal_graphs {| zero_spiral := Some 3 |} one_row_table "A1" = OK fig.
Proof.
  split; [|split].
  - apply (proj1 (plot_thermal_graphs_outcome
                    {| zero_spiral := None |} one_row_table "A1")).
    reflexivity.
  - apply (proj1 (proj2 (plot_thermal_graphs_outcome
                           {| zero_spiral := Some 3 |} scenario "A1"))).
    + discriminate.
    + reflexivity.
  - apply (proj2 (proj2 (plot_thermal_graphs_outcome
                           {| zero_spiral := Some 3 |} one_row_table "A1"))).
    + discriminate.
    + reflexivity.
Defined.

Lemma panels_plot_the_four_fields_witness :
  exists fig,
    plot_thermal_graphs {| zero_spiral := Some 3 |} one_row_table "A1" = OK fig /\
    suptitle fig = "Thermal Analysis: A1".
Proof.
  destruct (@panels_plot_the_four_fields (option Z) one_row_table 3 "A1")
    as (fig & xs & Hfig & _ & Htitle & _).
  - intros c Hc. vm_compute in Hc.
    repeat (destruct Hc as [<-|Hc]; [reflexivity|]). contradiction.
  - exists fig. split; assumption.
Defined.


Lemma plotted_lines_match_in_length_witness :
  exists g' raw' t fig,
    show_file {| zero_spiral := None |} scenario "A1"
    = (g', raw', OK (t, fig)) /\
    Forall
      (fun ax =>
         Forall (fun ln => xdata ln = [Some 1; Some 2; Some 3]
                           /\ length (ydata ln) = 3%nat)
                (lines ax))
      (axes fig).
Proof.
  exact (plotted_lines_match_in_length {| zero_spiral := None |} "A1"
           scenario_RawRecordSet eq_refl).
Defined.


Lemma empty_log_is_handled_witness :
  exists raw' t fig,
    show_file {| zero_spiral := Some 7 |} header_only "A1"
    = ({| zero_spiral := Some (-1) |}, raw', OK (t, fig)) /\
    len t = 0%nat.
Proof.
  destruct (empty_log_is_handled {| zero_spiral := Some 7 |} "A1"
              header_only_RawRecordSet eq_refl eq_refl)
    as (raw' & t & fig & Hshow & Hlen & _).
  exists raw', t, fig. split; assumption.
Defined.

Lemma get_subfolders_reports_witness :
  exists page' l,
    get_subfolders demo_fs "/locked" [] = (page', OK l) /\
    page' = ["Access Error: Permission denied"] /\ l = [].
Proof.
  assert (E : get_subfolders demo_fs "/locked" []
              = (["Access Error: Permission denied"], OK []))
    by reflexivity.
  exists ["Access Error: Permission denied"], []. split; [exact E|].
  destruct (get_subfolders_reports _ _ _ E) as [[Hpage _]|(e & _ & Hl)].
  - discriminate Hpage.
  - split; [reflexivity | exact Hl].
Defined.

Lemma selectbox_index_is_valid_witness :
  selectbox_index (select_options ["2024-01-02"; "2024-01-01"]) "2024-01-01"
  = Some 2%nat /\
  selectbox_index (select_options ["2024-01-02"; "2024-01-01"]) "2023-12-31"
  = Some 0%nat.
Proof.
  split.
  - destruct (selectbox_index_is_valid ["2024-01-02"; "2024-01-01"]
                "2024-01-01") as (i & Hi & _).
    rewrite Hi. vm_compute in Hi. symmetry. exact Hi.
  - destruct (selectbox_index_is_valid ["2024-01-02"; "2024-01-01"]
                "2023-12-31") as (i & Hi & _).
    rewrite Hi. vm_compute in Hi. symmetry. exact Hi.
Defined.
